(** * OpenCycle admin analytics: the SQL functions of the admin migration

    The functions [log_admin_action], [get_platform_analytics],
    [get_user_growth_data] and [get_category_distribution] of the
    "Admin System Enhancement" migration, embedded as Rocq functions over a
    database state of lists of rows, with PostgreSQL's rules written out
    where the behaviour depends on them:

    - a PL/pgSQL body is analysed before it runs: an unqualified column
      reference whose name is also a PL/pgSQL variable (a parameter or a
      RETURNS TABLE column) is rejected as ambiguous, and RETURN QUERY
      rejects a query whose column types differ from the declared ones;
    - timestamps are microseconds since the epoch, dates are day numbers,
      and the session time zone is UTC;
    - [numeric] values rounded to two decimals are integers counting
      hundredths; the quotient inside ROUND is taken exactly;
    - a SECURITY DEFINER function runs as its owner, the role that ran the
      migration and so also owns the tables the migration creates;
    - integers and dates are unbounded and the time of a session is taken
      as given; the range of the type timestamp is checked where the growth
      query computes the first day of its window ([user_growth_query_run]);
    - the request headers are a json object of names and strings, and the
      details of a logged action are a jsonb value already;
    - the columns the functions read hold no NULL except
      [item_views.user_id], and a call is made by the role [authenticated],
      to which EXECUTE is granted.

    The second half covers the rest of the migration (the policies, the
    default settings, the foreign key of the log) and the screens of the
    admin panel that compute the same figures in the browser: the routes
    and their guards, the analytics and dashboard queries, and the list
    handlers of the reports and items screens.  A browser query is taken to
    return every row it asks for. *)

From Stdlib Require Import ZArith List String Ascii Bool Lia.
From Stdlib Require Import Sorting.Sorted Sorting.Permutation.
Import ListNotations.
Open Scope Z_scope.

(** ** Results of a call *)

Inductive sqlstate :=
| ambiguous_column               (* 42702 *)
| datatype_mismatch              (* 42804 *)
| division_by_zero               (* 22012 *)
| invalid_text_representation    (* 22P02 *)
| datetime_field_overflow        (* 22008, timestamp out of range *)
| not_null_violation             (* 23502 *)
| foreign_key_violation          (* 23503 *)
| insufficient_privilege.        (* 42501, row-level security *)

Inductive result (A : Type) :=
| Ok (a : A)
| Error (e : sqlstate).
Arguments Ok {A} a.
Arguments Error {A} e.

Definition bind {A B} (r : result A) (k : A -> result B) : result B :=
  match r with
  | Ok a => k a
  | Error e => Error e
  end.

Notation "x <- r ;; k" := (bind r (fun x => k))
  (at level 61, r at next level, right associativity).

Fixpoint traverse {A B} (f : A -> result B) (l : list A) : result (list B) :=
  match l with
  | [] => Ok []
  | a :: t => b <- f a ;; bs <- traverse f t ;; Ok (b :: bs)
  end.

(** ** Static analysis of a PL/pgSQL function *)

Inductive sql_type := t_integer | t_bigint | t_numeric | t_text | t_date.

Definition sql_type_eqb (a b : sql_type) : bool :=
  match a, b with
  | t_integer, t_integer | t_bigint, t_bigint | t_numeric, t_numeric
  | t_text, t_text | t_date, t_date => true
  | _, _ => false
  end.

(** The expressions that occur in the select lists of the three table
    functions. *)
Inductive sexpr :=
| s_column (qualifier : option string) (name : string) (ty : sql_type)
| s_integer_literal
| s_count                                 (* COUNT( * ), COUNT(DISTINCT x) *)
| s_sum (e : sexpr)                       (* SUM(e), also as a window function *)
| s_coalesce (a b : sexpr)
| s_cast (e : sexpr) (ty : sql_type)
| s_div (a b : sexpr)
| s_mul (a b : sexpr)
| s_round (e : sexpr)                     (* ROUND(e, n) *)
| s_scalar_subquery (e : sexpr).

(** The wider of two number types, as COALESCE and the arithmetic operators
    resolve their operands. *)
Definition common_type (a b : sql_type) : option sql_type :=
  match a, b with
  | t_integer, t_integer => Some t_integer
  | t_integer, t_bigint | t_bigint, t_integer | t_bigint, t_bigint => Some t_bigint
  | t_numeric, (t_integer | t_bigint | t_numeric)
  | (t_integer | t_bigint), t_numeric => Some t_numeric
  | t_text, t_text => Some t_text
  | t_date, t_date => Some t_date
  | _, _ => None
  end.

Fixpoint type_of (e : sexpr) : option sql_type :=
  match e with
  | s_column _ _ ty => Some ty
  | s_integer_literal => Some t_integer
  | s_count => Some t_bigint
  | s_sum a =>
      match type_of a with
      | Some t_integer => Some t_bigint
      | Some t_bigint => Some t_numeric        (* sum(bigint) is numeric *)
      | Some t_numeric => Some t_numeric
      | _ => None
      end
  | s_coalesce a b | s_div a b | s_mul a b =>
      match type_of a, type_of b with
      | Some ta, Some tb => common_type ta tb
      | _, _ => None
      end
  | s_cast _ ty => Some ty
  | s_round a =>
      match type_of a with
      | Some (t_integer | t_bigint | t_numeric) => Some t_numeric
      | _ => None
      end
  | s_scalar_subquery a => type_of a
  end.

Record column_ref := { cr_qualifier : option string; cr_name : string }.

Record plpgsql_function := {
  fn_variables : list string;       (* parameters and RETURNS TABLE columns *)
  fn_returns : list sql_type;       (* declared column types *)
  fn_column_refs : list column_ref; (* table-column references of the body *)
  fn_select_list : list sexpr       (* select list of the RETURN QUERY *)
}.

(** An unqualified reference that names a table column and a variable. *)
Definition ambiguous (vars : list string) (r : column_ref) : bool :=
  match cr_qualifier r with
  | Some _ => false
  | None => existsb (String.eqb (cr_name r)) vars
  end.

Fixpoint types_match (declared : list sql_type) (returned : list (option sql_type)) : bool :=
  match declared, returned with
  | [], [] => true
  | d :: ds, Some r :: rs => sql_type_eqb d r && types_match ds rs
  | _, _ => false
  end.

Definition analyse (f : plpgsql_function) : result unit :=
  if existsb (ambiguous (fn_variables f)) (fn_column_refs f)
  then Error ambiguous_column
  else if types_match (fn_returns f) (map type_of (fn_select_list f))
       then Ok tt
       else Error datatype_mismatch.

(** RETURN QUERY: the rows of the query, when the function passes analysis. *)
Definition return_query {A} (f : plpgsql_function) (rows : result (list A)) : result (list A) :=
  _ <- analyse f ;; rows.

(** ** Time *)

Abbreviation timestamptz := Z (only parsing).   (* microseconds since the epoch *)
Abbreviation timestamp := Z (only parsing).     (* the same, without time zone *)
Abbreviation pg_date := Z (only parsing).       (* days since the epoch *)

Definition usecs_per_day : Z := 86400000000.

(** [ts::date] *)
Definition date_of (ts : Z) : pg_date := ts / usecs_per_day.
(** A date used where a timestamp is expected: midnight of that day. *)
Definition timestamp_of_date (d : pg_date) : timestamp := d * usecs_per_day.
(** [INTERVAL '1 day' * n], in microseconds. *)
Definition interval_days (n : Z) : Z := usecs_per_day * n.

(** [generate_series(start, stop, step)] for a positive step: start,
    start+step, ... while the value does not exceed stop. *)
Definition generate_series (start stop step : Z) : list Z :=
  if stop <? start then []
  else map (fun k => start + step * Z.of_nat k)
           (seq 0 (S (Z.to_nat ((stop - start) / step)))).

(** ** uuid values and their input syntax *)

Abbreviation uuid := N (only parsing).

Definition hex_digit (c : ascii) : option N :=
  let n := N_of_ascii c in
  (if (48 <=? n) && (n <=? 57) then Some (n - 48)
   else if (97 <=? n) && (n <=? 102) then Some (n - 87)
   else if (65 <=? n) && (n <=? 70) then Some (n - 55)
   else None)%N.

(** Sixteen bytes of two hexadecimal digits each; a hyphen may follow a byte
    of odd index other than the last. *)
Fixpoint read_uuid_bytes (remaining : nat) (src : list ascii) (acc : N)
  : option (N * list ascii) :=
  match remaining with
  | O => Some (acc, src)
  | S k =>
      match src with
      | h :: l :: rest =>
          match hex_digit h, hex_digit l with
          | Some a, Some b =>
              let i := (15 - k)%nat in
              let rest' :=
                match rest with
                | "-"%char :: r => if Nat.odd i && (i <? 15)%nat then r else rest
                | _ => rest
                end in
              read_uuid_bytes k rest' (acc * 256 + a * 16 + b)%N
          | _, _ => None
          end
      | _ => None
      end
  end.

(** The text-to-uuid coercion applied to an argument of type uuid. *)
Definition uuid_in (s : string) : option uuid :=
  let src := list_ascii_of_string s in
  let '(braces, src) :=
    match src with
    | "{"%char :: r => (true, r)
    | _ => (false, src)
    end in
  match read_uuid_bytes 16 src 0%N with
  | Some (u, rest) =>
      if braces
      then match rest with ["}"%char] => Some u | _ => None end
      else match rest with [] => Some u | _ => None end
  | None => None
  end.

(** ** LIKE *)

(** [s LIKE p]: [%] matches any run of characters, [_] any one character. *)
Fixpoint like_chars (p : list ascii) : list ascii -> bool :=
  match p with
  | [] => fun s => match s with [] => true | _ => false end
  | "%"%char :: p' =>
      fix star (s : list ascii) : bool :=
        like_chars p' s || match s with [] => false | _ :: s' => star s' end
  | "_"%char :: p' =>
      fun s => match s with [] => false | _ :: s' => like_chars p' s' end
  | c :: p' =>
      fun s => match s with [] => false | d :: s' => Ascii.eqb c d && like_chars p' s' end
  end.

Definition like (s pattern : string) : bool :=
  like_chars (list_ascii_of_string pattern) (list_ascii_of_string s).

(** ** Tables *)

(** Modelled from the spec: the tables users, items, item_views, favorites,
    messages and reports are created by migrations that are not among the
    sources; their rows carry the key attributes of the data model and the
    columns the functions read. *)
Record users_row := {
  users_id : uuid;
  users_email : string;
  users_created_at : timestamptz }.

Record items_row := {
  items_id : uuid;
  items_category : string;
  items_is_available : bool;
  items_created_at : timestamptz }.

Record item_views_row := {
  item_views_id : uuid;
  item_views_user_id : option uuid;
  item_views_created_at : timestamptz }.

Record favorites_row := { favorites_id : uuid }.
Record messages_row := { messages_id : uuid }.

Record reports_row := {
  reports_id : uuid;
  reports_status : string;
  reports_created_at : timestamptz }.

(** [public.admin_logs] as the migration creates it. *)
Record admin_logs_row := {
  log_id : uuid;
  log_admin_id : option uuid;
  log_action : string;
  log_target_type : option string;
  log_target_id : option uuid;
  log_details : option string;
  log_ip_address : option string;
  log_user_agent : option string;
  log_created_at : timestamptz }.

Record database := {
  users : list users_row;
  items : list items_row;
  item_views : list item_views_row;
  favorites : list favorites_row;
  messages : list messages_row;
  reports : list reports_row;
  admin_logs : list admin_logs_row }.

Definition with_admin_logs (db : database) (l : list admin_logs_row) : database :=
  {| users := users db; items := items db; item_views := item_views db;
     favorites := favorites db; messages := messages db; reports := reports db;
     admin_logs := l |}.

(** ** The calling session *)

Record session := {
  auth_uid : option uuid;                              (* auth.uid() *)
  inet_client_addr : option string;
  request_headers : option (list (string * string));   (* request.headers *)
  now : timestamptz;
  gen_random_uuid : uuid }.

Definition current_date (s : session) : pg_date := date_of (now s).

(** [obj ->> key] on a json object, its members in the order of the text.
    Where a name is repeated, the last member is the one the operator
    returns. *)
Fixpoint json_field (key : string) (obj : list (string * string)) : option string :=
  match obj with
  | [] => None
  | (k, v) :: t =>
      match json_field key t with
      | Some v' => Some v'
      | None => if String.eqb k key then Some v else None
      end
  end.

(** [current_setting('request.headers', true)::json->>'user-agent'] *)
Definition user_agent_of (s : session) : option string :=
  match request_headers s with
  | None => None
  | Some obj => json_field "user-agent" obj
  end.

(** ** Row-level security of the admin tables *)

(** The predicate of the four policies: a users row with [id = auth.uid()]
    whose email is the admin address or lies in the admin subdomain. *)
Definition is_admin (db : database) (uid : option uuid) : bool :=
  match uid with
  | None => false
  | Some u =>
      existsb (fun r => N.eqb (users_id r) u &&
                        (String.eqb (users_email r) "admin@opencycle.com" ||
                         like (users_email r) "%@admin.opencycle.com"))
              (users db)
  end.

(** The role a statement runs as: [authenticated] for a statement sent by
    the client, the owner inside a SECURITY DEFINER function. *)
Inductive db_role := role_authenticated | role_owner.

(** Policies are declared TO authenticated and the tables are not under
    FORCE ROW LEVEL SECURITY, so the owner is exempt. *)
Definition rls_applies (r : db_role) : bool :=
  match r with
  | role_authenticated => true
  | role_owner => false
  end.

Definition references_users (db : database) (id : option uuid) : bool :=
  match id with
  | None => true
  | Some u => existsb (fun r => N.eqb (users_id r) u) (users db)
  end.

(** [INSERT INTO public.admin_logs (admin_id, action, target_type, target_id,
    details, ip_address, user_agent) VALUES (...)], run as [current_user]:
    the "Only admins can create logs" check, then [action NOT NULL], then the
    foreign key of [admin_id]. *)
Definition insert_admin_logs (current_user : db_role) (s : session) (db : database)
    (admin_id : option uuid) (action : option string) (target_type : option string)
    (target_id : option uuid) (details ip_address user_agent : option string)
  : result database :=
  if rls_applies current_user && negb (is_admin db (auth_uid s))
  then Error insufficient_privilege
  else
    match action with
    | None => Error not_null_violation
    | Some a =>
        if references_users db admin_id
        then Ok (with_admin_logs db
                   (admin_logs db ++
                    [{| log_id := gen_random_uuid s; log_admin_id := admin_id;
                        log_action := a; log_target_type := target_type;
                        log_target_id := target_id; log_details := details;
                        log_ip_address := ip_address; log_user_agent := user_agent;
                        log_created_at := now s |}]))
        else Error foreign_key_violation
    end.

(** ** log_admin_action *)

Definition log_admin_action (s : session) (db : database)
    (action_name target_type_param : option string)
    (target_id_param : option uuid) (details_param : option string)
  : result database :=
  insert_admin_logs role_owner s db
    (auth_uid s) action_name target_type_param target_id_param details_param
    (inet_client_addr s) (user_agent_of s).

(** A call as the client sends it: the target id arrives as text (or is
    absent) and is coerced to the parameter type uuid before the body runs.
    [details_param] is the jsonb value of the call, written as text; the
    coercion that produces it from the text of the request, and refuses a
    text that is not JSON, is no part of this function. *)
Definition call_log_admin_action (s : session) (db : database)
    (action_name target_type_param target_id_text details_param : option string)
  : result database :=
  match target_id_text with
  | None => log_admin_action s db action_name target_type_param None details_param
  | Some txt =>
      match uuid_in txt with
      | Some u => log_admin_action s db action_name target_type_param (Some u) details_param
      | None => Error invalid_text_representation
      end
  end.

(** ** Relational operators *)

Definition count {A} (rows : list A) : Z := Z.of_nat (List.length rows).

(** SUM: NULL over no rows. *)
Definition sum (xs : list Z) : option Z :=
  match xs with
  | [] => None
  | _ => Some (fold_right Z.add 0 xs)
  end.

Definition coalesce (x : option Z) (d : Z) : Z :=
  match x with
  | Some v => v
  | None => d
  end.

(** COUNT(DISTINCT x): NULLs are not counted. *)
Fixpoint non_null {A} (xs : list (option A)) : list A :=
  match xs with
  | [] => []
  | Some x :: t => x :: non_null t
  | None :: t => non_null t
  end.

Definition count_distinct (xs : list (option uuid)) : Z :=
  count (nodup N.eq_dec (non_null xs)).

(** [SELECT k, COUNT( * ) ... GROUP BY k] over the keys of the rows. *)
Definition group_count {K} (dec : forall a b : K, {a = b} + {a <> b})
    (keys : list K) : list (K * Z) :=
  map (fun k => (k, Z.of_nat (count_occ dec keys k))) (nodup dec keys).

(** [l LEFT JOIN r ON on l r]: an unmatched left row is kept once. *)
Definition left_join {A B} (on : A -> B -> bool) (l : list A) (r : list B)
  : list (A * option B) :=
  flat_map (fun a =>
              match filter (on a) r with
              | [] => [(a, None)]
              | ms => map (fun b => (a, Some b)) ms
              end) l.

Definition cross_join {A B} (l : list A) (r : list B) : list (A * B) :=
  flat_map (fun a => map (fun b => (a, b)) r) l.

(** ORDER BY: a stable insertion sort. *)
Fixpoint insert_by {A} (le : A -> A -> bool) (x : A) (l : list A) : list A :=
  match l with
  | [] => [x]
  | y :: t => if le x y then x :: l else y :: insert_by le x t
  end.

Definition order_by {A} (le : A -> A -> bool) (l : list A) : list A :=
  fold_right (insert_by le) [] l.

Definition column (q : string) (name : string) : column_ref :=
  {| cr_qualifier := Some q; cr_name := name |}.
Definition bare (name : string) : column_ref :=
  {| cr_qualifier := None; cr_name := name |}.

(** ** get_platform_analytics *)

Module PlatformAnalytics.

Record row := {
  total_users : Z;
  total_items : Z;
  total_views : Z;
  total_favorites : Z;
  total_messages : Z;
  total_reports : Z;
  active_users_today : Z;
  new_users_today : Z;
  new_items_today : Z;
  pending_reports : Z }.

Definition fn : plpgsql_function := {|
  fn_variables :=
    ["days_back"; "total_users"; "total_items"; "total_views"; "total_favorites";
     "total_messages"; "total_reports"; "active_users_today"; "new_users_today";
     "new_items_today"; "pending_reports"]%string;
  fn_returns := repeat t_bigint 10;
  fn_column_refs :=
    [bare "user_id"; bare "created_at"; bare "created_at"; bare "created_at";
     bare "status"];
  fn_select_list := repeat (s_scalar_subquery s_count) 10 |}.

(** [created_at >= CURRENT_DATE] *)
Definition since_today (s : session) (created_at : timestamptz) : bool :=
  timestamp_of_date (current_date s) <=? created_at.

Definition query (s : session) (db : database) : list row :=
  [{| total_users := count (users db);
      total_items := count (items db);
      total_views := count (item_views db);
      total_favorites := count (favorites db);
      total_messages := count (messages db);
      total_reports := count (reports db);
      active_users_today :=
        count_distinct
          (map item_views_user_id
               (filter (fun v => since_today s (item_views_created_at v)) (item_views db)));
      new_users_today :=
        count (filter (fun u => since_today s (users_created_at u)) (users db));
      new_items_today :=
        count (filter (fun i => since_today s (items_created_at i)) (items db));
      pending_reports :=
        count (filter (fun r => String.eqb (reports_status r) "pending") (reports db)) |}].

Definition get_platform_analytics (s : session) (db : database) (days_back : Z)
  : result (list row) :=
  return_query fn (Ok (query s db)).

End PlatformAnalytics.

(** ** get_user_growth_data *)

Module UserGrowth.

Record row := {
  date : pg_date;
  new_users : Z;
  cumulative_users : Z }.

Definition fn : plpgsql_function := {|
  fn_variables := ["days_back"; "date"; "new_users"; "cumulative_users"]%string;
  fn_returns := [t_date; t_bigint; t_bigint];
  fn_column_refs :=
    [bare "created_at"; bare "created_at"; bare "created_at";
     column "ds" "date"; column "du" "new_users"; column "du" "new_users";
     column "ds" "date"; column "ds" "date"; column "du" "date"; column "ds" "date"];
  fn_select_list :=
    [s_column (Some "ds"%string) "date" t_date;
     s_coalesce (s_column (Some "du"%string) "new_users" t_bigint) s_integer_literal;
     s_sum (s_coalesce (s_column (Some "du"%string) "new_users" t_bigint) s_integer_literal)]
  |}.

(** [CURRENT_DATE - INTERVAL '1 day' * days_back], as a number; PostgreSQL
    raises an error where it leaves the range of the type timestamp, see
    [user_growth_query_run] below. *)
Definition window_start (s : session) (days_back : Z) : timestamp :=
  timestamp_of_date (current_date s) - interval_days days_back.

Definition date_series (s : session) (days_back : Z) : list pg_date :=
  map date_of
      (generate_series (window_start s days_back)
                       (timestamp_of_date (current_date s))
                       (interval_days 1)).

Definition daily_users (s : session) (db : database) (days_back : Z)
  : list (pg_date * Z) :=
  group_count Z.eq_dec
    (map (fun u => date_of (users_created_at u))
         (filter (fun u => window_start s days_back <=? users_created_at u) (users db))).

(** [date_series ds LEFT JOIN daily_users du ON ds.date = du.date] *)
Definition joined (s : session) (db : database) (days_back : Z)
  : list (pg_date * option (pg_date * Z)) :=
  left_join (fun ds du => ds =? fst du) (date_series s days_back) (daily_users s db days_back).

(** [COALESCE(du.new_users, 0)] *)
Definition coalesced_new_users (j : pg_date * option (pg_date * Z)) : Z :=
  coalesce (option_map snd (snd j)) 0.

(** [SUM(...) OVER (ORDER BY ds.date)]: the default frame runs from the first
    row through the current row and its peers, the rows whose date does not
    exceed the current one. *)
Definition running_sum (js : list (pg_date * option (pg_date * Z)))
    (j : pg_date * option (pg_date * Z)) : Z :=
  fold_right Z.add 0 (map coalesced_new_users (filter (fun j' => fst j' <=? fst j) js)).

Definition query (s : session) (db : database) (days_back : Z) : list row :=
  let js := joined s db days_back in
  order_by (fun a b => date a <=? date b)
    (map (fun j => {| date := fst j;
                      new_users := coalesced_new_users j;
                      cumulative_users := running_sum js j |}) js).

Definition get_user_growth_data (s : session) (db : database) (days_back : Z)
  : result (list row) :=
  return_query fn (Ok (query s db days_back)).

End UserGrowth.

(** The range of the type timestamp: from 4714-11-24 BC, Julian day 0, up to
    but not including 294277-01-01, Julian day 109203528.  The Unix epoch is
    Julian day 2440588. *)
Definition min_timestamp : timestamp := (0 - 2440588) * usecs_per_day.
Definition end_timestamp : timestamp := (109203528 - 2440588) * usecs_per_day.

Definition timestamp_in_range (t : timestamp) : bool :=
  (min_timestamp <=? t) && (t <? end_timestamp).

(** The query of get_user_growth_data as PostgreSQL runs it: the subtraction
    [CURRENT_DATE - INTERVAL '1 day' * days_back] raises "timestamp out of
    range" where its result is no timestamp. *)
Definition user_growth_query_run (s : session) (db : database) (days_back : Z)
  : result (list UserGrowth.row) :=
  if timestamp_in_range (UserGrowth.window_start s days_back)
  then Ok (UserGrowth.query s db days_back)
  else Error datetime_field_overflow.

(** ** get_category_distribution *)

Module CategoryDistribution.

(** [percentage] counts hundredths: 6667 is 66.67. *)
Record row := {
  category : string;
  item_count : Z;
  percentage : option Z }.

Definition fn : plpgsql_function := {|
  fn_variables := ["category"; "item_count"; "percentage"]%string;
  fn_returns := [t_text; t_bigint; t_numeric];
  fn_column_refs :=
    [column "i" "category"; column "i" "is_available"; column "i" "category";
     bare "item_count";
     column "cc" "category"; column "cc" "item_count"; column "cc" "item_count";
     column "ti" "total"; column "cc" "item_count"];
  fn_select_list :=
    [s_column (Some "cc"%string) "category" t_text;
     s_column (Some "cc"%string) "item_count" t_bigint;
     s_round (s_mul (s_div (s_cast (s_column (Some "cc"%string) "item_count" t_bigint) t_numeric)
                           (s_cast (s_column (Some "ti"%string) "total" t_numeric) t_numeric))
                    s_integer_literal)]
  |}.

Definition category_counts (db : database) : list (string * Z) :=
  group_count string_dec (map items_category (filter items_is_available (items db))).

(** [SELECT SUM(item_count) as total FROM category_counts]: one row. *)
Definition total_items (db : database) : list (option Z) :=
  [sum (map snd (category_counts db))].

(** The quotient num/den rounded to the nearest integer, ties away from
    zero, as ROUND rounds a numeric. *)
Definition round_half_away (num den : Z) : Z :=
  Z.sgn num * Z.sgn den * ((2 * Z.abs num + Z.abs den) / (2 * Z.abs den)).

(** [ROUND((cc.item_count::numeric / ti.total::numeric) * 100, 2)] *)
Definition percentage_of (cnt : Z) (total : option Z) : result (option Z) :=
  match total with
  | None => Ok None
  | Some t =>
      if t =? 0 then Error division_by_zero
      else Ok (Some (round_half_away (cnt * 100 * 100) t))
  end.

Definition query (db : database) : result (list row) :=
  rows <- traverse (fun j : (string * Z) * option Z =>
                      p <- percentage_of (snd (fst j)) (snd j) ;;
                      Ok {| category := fst (fst j);
                            item_count := snd (fst j);
                            percentage := p |})
                   (cross_join (category_counts db) (total_items db)) ;;
  Ok (order_by (fun a b => item_count b <=? item_count a) rows).

Definition get_category_distribution (s : session) (db : database)
  : result (list row) :=
  return_query fn (query db).

End CategoryDistribution.

(** ** Calls granted to [authenticated] *)

Inductive rpc_call :=
| rpc_log_admin_action (action_name target_type_param target_id_param details_param : option string)
| rpc_get_platform_analytics (days_back : Z)
| rpc_get_user_growth_data (days_back : Z)
| rpc_get_category_distribution.

Inductive response :=
| resp_void
| resp_platform_analytics (rows : list PlatformAnalytics.row)
| resp_user_growth (rows : list UserGrowth.row)
| resp_category_distribution (rows : list CategoryDistribution.row).

(** One call: the database after it and what the caller receives.  A failed
    call leaves the database as it was. *)
Definition exec (s : session) (c : rpc_call) (db : database) : database * result response :=
  match c with
  | rpc_log_admin_action a ty id d =>
      match call_log_admin_action s db a ty id d with
      | Ok db' => (db', Ok resp_void)
      | Error e => (db, Error e)
      end
  | rpc_get_platform_analytics n =>
      (db, rows <- PlatformAnalytics.get_platform_analytics s db n ;;
           Ok (resp_platform_analytics rows))
  | rpc_get_user_growth_data n =>
      (db, rows <- UserGrowth.get_user_growth_data s db n ;;
           Ok (resp_user_growth rows))
  | rpc_get_category_distribution =>
      (db, rows <- CategoryDistribution.get_category_distribution s db ;;
           Ok (resp_category_distribution rows))
  end.

(** A statement the client sends itself, outside the functions: the insert
    runs as [authenticated] and row-level security applies. *)
Definition direct_insert_admin_logs (s : session) (db : database)
    (action target_type : option string) (target_id : option uuid)
    (details : option string) : result database :=
  insert_admin_logs role_authenticated s db
    (auth_uid s) action target_type target_id details
    (inet_client_addr s) (user_agent_of s).

(** ** Sample states *)

Definition empty_db : database :=
  {| users := []; items := []; item_views := []; favorites := [];
     messages := []; reports := []; admin_logs := [] |}.

Definition with_users (db : database) (l : list users_row) : database :=
  {| users := l; items := items db; item_views := item_views db;
     favorites := favorites db; messages := messages db; reports := reports db;
     admin_logs := admin_logs db |}.

Definition with_items (db : database) (l : list items_row) : database :=
  {| users := users db; items := l; item_views := item_views db;
     favorites := favorites db; messages := messages db; reports := reports db;
     admin_logs := admin_logs db |}.

Definition with_item_views (db : database) (l : list item_views_row) : database :=
  {| users := users db; items := items db; item_views := l;
     favorites := favorites db; messages := messages db; reports := reports db;
     admin_logs := admin_logs db |}.

(** Noon of day [d], seen by the user with id [uid]. *)
Definition session_on (uid : N) (d : Z) : session :=
  {| auth_uid := Some uid;
     inet_client_addr := Some "203.0.113.9"%string;
     request_headers := Some [("user-agent", "Mozilla/5.0")]%string;
     now := d * usecs_per_day + 43200000000;
     gen_random_uuid := 4096%N |}.

Definition user_on (id : N) (email : string) (d : Z) : users_row :=
  {| users_id := id; users_email := email;
     users_created_at := d * usecs_per_day + 3600000000 |}.

Definition item_in (id : N) (cat : string) (available : bool) : items_row :=
  {| items_id := id; items_category := cat; items_is_available := available;
     items_created_at := 0 |}.

(** An administrator (id 1) and an ordinary member (id 7). *)
Definition two_users : database :=
  with_users empty_db
    [user_on 1 "admin@opencycle.com" 10; user_on 7 "mallory@example.com" 20].

(** Three signups on day 99 and two on day 100, one long before. *)
Definition five_signups : database :=
  with_users empty_db
    [user_on 1 "a@example.com" 99; user_on 2 "b@example.com" 99;
     user_on 3 "c@example.com" 99; user_on 4 "d@example.com" 100;
     user_on 5 "e@example.com" 100; user_on 6 "f@example.com" 12].

Definition books_and_toys : database :=
  with_items empty_db
    [item_in 1 "Books" true; item_in 2 "Books" true; item_in 3 "Toys" true;
     item_in 4 "Sports" false].

Definition seven_categories : database :=
  with_items empty_db
    [item_in 1 "Electronics" true; item_in 2 "Furniture" true;
     item_in 3 "Clothing" true; item_in 4 "Books" true; item_in 5 "Toys" true;
     item_in 6 "Kitchen" true; item_in 7 "Sports" true].

(** Three views today: two by the member with id 7, one anonymous. *)
Definition one_view : database :=
  with_item_views two_users
    [{| item_views_id := 50%N; item_views_user_id := Some 7%N;
        item_views_created_at := 100 * usecs_per_day + 60000000 |};
     {| item_views_id := 51%N; item_views_user_id := None;
        item_views_created_at := 100 * usecs_per_day + 90000000 |};
     {| item_views_id := 52%N; item_views_user_id := Some 7%N;
        item_views_created_at := 100 * usecs_per_day + 95000000 |}].

Definition total_percentage (rows : list CategoryDistribution.row) : Z :=
  fold_right Z.add 0 (map (fun r => coalesce (CategoryDistribution.percentage r) 0) rows).

(** Every non-null [item_views.user_id] is the id of a users row. *)
Definition views_reference_users (db : database) : Prop :=
  forall v u, In v (item_views db) -> item_views_user_id v = Some u ->
              exists r, In r (users db) /\ users_id r = u.

(** ** Quantities the statements use *)

(** The days [d, d+1, ..., d+n-1]. *)
Definition days_from (d : Z) (n : nat) : list Z :=
  map (fun k => d + Z.of_nat k) (seq 0 n).

(** The row that the left join pairs with the date [d]. *)
Definition joined_row (keys : list Z) (d : Z) : Z * option (Z * Z) :=
  (d, if in_dec Z.eq_dec d keys
      then Some (d, Z.of_nat (count_occ Z.eq_dec keys d)) else None).

(** Users created on day [d]. *)
Definition signups_on (db : database) (d : pg_date) : Z :=
  count (filter (fun u => date_of (users_created_at u) =? d) (users db)).

(** Users created on the days [lo .. hi]. *)
Definition signups_between (db : database) (lo hi : pg_date) : Z :=
  count (filter (fun u => (lo <=? date_of (users_created_at u)) &&
                          (date_of (users_created_at u) <=? hi)) (users db)).

Definition growth_row (db : database) (lo d : pg_date) : UserGrowth.row :=
  {| UserGrowth.date := d;
     UserGrowth.new_users := signups_on db d;
     UserGrowth.cumulative_users := signups_between db lo d |}.

(** Available items. *)
Definition available (db : database) : Z :=
  count (filter items_is_available (items db)).

(** Available items of category [c]. *)
Definition available_in (db : database) (c : string) : Z :=
  count (filter (fun i => String.eqb (items_category i) c)
                (filter items_is_available (items db))).

(** The result row for the group [cc], given the total. *)
Definition distribution_row (total : Z) (cc : string * Z) : CategoryDistribution.row :=
  {| CategoryDistribution.category := fst cc;
     CategoryDistribution.item_count := snd cc;
     CategoryDistribution.percentage :=
       Some (CategoryDistribution.round_half_away (snd cc * 100 * 100) total) |}.

(** ** Row-level security policies of the admin tables *)

Inductive admin_table := tbl_admin_settings | tbl_admin_logs.

Inductive command := cmd_select | cmd_insert | cmd_update | cmd_delete.

Definition admin_table_eqb (a b : admin_table) : bool :=
  match a, b with
  | tbl_admin_settings, tbl_admin_settings | tbl_admin_logs, tbl_admin_logs => true
  | _, _ => false
  end.

Definition command_eqb (a b : command) : bool :=
  match a, b with
  | cmd_select, cmd_select | cmd_insert, cmd_insert
  | cmd_update, cmd_update | cmd_delete, cmd_delete => true
  | _, _ => false
  end.

(** A policy TO authenticated; [pol_for = None] is FOR ALL.  The expressions
    of the four policies do not read the row they guard. *)
Record policy := {
  pol_name : string;
  pol_table : admin_table;
  pol_for : option command;
  pol_using : option (database -> option N -> bool);
  pol_with_check : option (database -> option N -> bool) }.

Definition policies : list policy :=
  [ {| pol_name := "Only admins can view settings";
       pol_table := tbl_admin_settings; pol_for := Some cmd_select;
       pol_using := Some is_admin; pol_with_check := None |};
    {| pol_name := "Only admins can modify settings";
       pol_table := tbl_admin_settings; pol_for := None;
       pol_using := Some is_admin; pol_with_check := None |};
    {| pol_name := "Only admins can view logs";
       pol_table := tbl_admin_logs; pol_for := Some cmd_select;
       pol_using := Some is_admin; pol_with_check := None |};
    {| pol_name := "Only admins can create logs";
       pol_table := tbl_admin_logs; pol_for := Some cmd_insert;
       pol_using := None; pol_with_check := Some is_admin |} ].

Definition applies (p : policy) (t : admin_table) (c : command) : bool :=
  admin_table_eqb (pol_table p) t &&
  match pol_for p with
  | None => true
  | Some c' => command_eqb c' c
  end.

Definition holds (e : option (database -> option N -> bool)) (s : session) (db : database) : bool :=
  match e with
  | Some f => f db (auth_uid s)
  | None => false
  end.

(** Existing rows a command may touch: some applicable policy's USING holds;
    with no applicable policy nothing is allowed. *)
Definition using_allows (t : admin_table) (c : command) (s : session) (db : database) : bool :=
  existsb (fun p => applies p t c && holds (pol_using p) s db) policies.

(** New rows a command may write: WITH CHECK, or USING where a policy has no
    WITH CHECK. *)
Definition check_allows (t : admin_table) (c : command) (s : session) (db : database) : bool :=
  existsb (fun p => applies p t c &&
                    holds (match pol_with_check p with
                           | Some f => Some f
                           | None => pol_using p
                           end) s db) policies.

(** Statements sent by the client as [authenticated].  A statement with a
    WHERE clause reads the rows, so the SELECT policies apply to it too. *)
Definition rls_select {R} (t : admin_table) (s : session) (db : database)
    (rows : list R) : list R :=
  if using_allows t cmd_select s db then rows else [].

Definition rls_delete {R} (t : admin_table) (s : session) (db : database)
    (where_ : R -> bool) (rows : list R) : list R :=
  if using_allows t cmd_delete s db && using_allows t cmd_select s db
  then filter (fun r => negb (where_ r)) rows
  else rows.

(** Row security of an UPDATE.  The triggers and the constraints of the
    table act on the rows the statement reaches, after this; they are not
    part of it, and where no row is reached the table stays as it is. *)
Definition rls_update {R} (t : admin_table) (s : session) (db : database)
    (where_ : R -> bool) (set : R -> R) (rows : list R) : result (list R) :=
  if using_allows t cmd_update s db && using_allows t cmd_select s db
  then if check_allows t cmd_update s db || negb (existsb where_ rows)
       then Ok (map (fun r => if where_ r then set r else r) rows)
       else Error insufficient_privilege
  else Ok rows.

(** ** admin_settings and its default rows *)

Inductive jsonb := j_string (s : string) | j_bool (b : bool) | j_number (n : Z).

Record admin_settings_row := {
  setting_id : N;
  setting_key : string;
  setting_value : jsonb;
  setting_description : option string;
  setting_created_at : Z;
  setting_updated_at : Z }.

(** The VALUES list of the migration's INSERT. *)
Definition default_settings : list (string * jsonb * string) :=
  [ ("site_name", j_string "OpenCycle", "Name of the platform");
    ("site_description", j_string "Community Item Sharing Platform", "Platform description");
    ("contact_email", j_string "admin@opencycle.com", "Contact email for the platform");
    ("allow_registration", j_bool true, "Allow new user registrations");
    ("require_email_verification", j_bool false, "Require email verification for new users");
    ("moderation_enabled", j_bool true, "Enable content moderation");
    ("auto_approve_items", j_bool true, "Automatically approve new items");
    ("max_items_per_user", j_number 50, "Maximum items per user");
    ("max_image_size", j_number 5, "Maximum image size in MB");
    ("enable_notifications", j_bool true, "Enable email notifications");
    ("maintenance_mode", j_bool false, "Enable maintenance mode") ]%string.

Definition key_taken (k : string) (t : list admin_settings_row) : bool :=
  existsb (fun r => String.eqb (setting_key r) k) t.

(** [INSERT INTO public.admin_settings (key, value, description) VALUES ...
    ON CONFLICT (key) DO NOTHING]: the rows are proposed in order, a row whose
    key is present (in the table or among the rows just inserted) is skipped;
    id, created_at and updated_at take their defaults.  The [n]-th proposed
    row draws [fresh n] from gen_random_uuid(). *)
Fixpoint insert_on_conflict_do_nothing (now : Z) (fresh : nat -> N) (n : nat)
    (vals : list (string * jsonb * string)) (t : list admin_settings_row)
  : list admin_settings_row :=
  match vals with
  | [] => t
  | (k, v, d) :: rest =>
      insert_on_conflict_do_nothing now fresh (S n) rest
        (if key_taken k t then t
         else t ++ [{| setting_id := fresh n; setting_key := k; setting_value := v;
                       setting_description := Some d;
                       setting_created_at := now; setting_updated_at := now |}])
  end.

Definition seed_default_settings (now : Z) (fresh : nat -> N)
    (t : list admin_settings_row) : list admin_settings_row :=
  insert_on_conflict_do_nothing now fresh 0 default_settings t.

(** ** admin_logs.admin_id REFERENCES public.users(id) ON DELETE SET NULL *)

Definition set_admin_id_null (r : admin_logs_row) : admin_logs_row :=
  {| log_id := log_id r; log_admin_id := None; log_action := log_action r;
     log_target_type := log_target_type r; log_target_id := log_target_id r;
     log_details := log_details r; log_ip_address := log_ip_address r;
     log_user_agent := log_user_agent r; log_created_at := log_created_at r |}.

(** What the deletion of the users row [uid] does to admin_logs. *)
Definition on_delete_set_null (uid : N) (logs : list admin_logs_row) : list admin_logs_row :=
  map (fun r => match log_admin_id r with
                | Some a => if N.eqb a uid then set_admin_id_null r else r
                | None => r
                end) logs.

(** Every non-null [admin_logs.admin_id] is the id of a row of [us]. *)
Definition logs_reference (us : list users_row) (logs : list admin_logs_row) : Prop :=
  forall r a, In r logs -> log_admin_id r = Some a ->
              exists u, In u us /\ users_id u = a.

(** [l] is [l0] followed by at most one more row. *)
Definition extends_by_at_most_one {A} (l0 l : list A) : Prop :=
  l = l0 \/ exists x, l = l0 ++ [x].

(** ** Analytics.tsx: the aggregations done in the browser *)

(** A JavaScript Map: its entries in insertion order. *)
Fixpoint js_map_get {K V} (eqb : K -> K -> bool) (m : list (K * V)) (k : K) : option V :=
  match m with
  | [] => None
  | (k', v) :: t => if eqb k' k then Some v else js_map_get eqb t k
  end.

(** [m.set(k, v)]: an existing key keeps its place. *)
Fixpoint js_map_set {K V} (eqb : K -> K -> bool) (m : list (K * V)) (k : K) (v : V)
  : list (K * V) :=
  match m with
  | [] => [(k, v)]
  | (k', v') :: t =>
      if eqb k' k then (k', v) :: t else (k', v') :: js_map_set eqb t k v
  end.

(** [x || 0] for a number or undefined. *)
Definition js_or_zero (x : option Z) : Z :=
  match x with
  | Some n => if n =? 0 then 0 else n
  | None => 0
  end.

(** [map.set(key, (map.get(key) || 0) + 1)] *)
Definition bump {K} (eqb : K -> K -> bool) (m : list (K * Z)) (k : K) : list (K * Z) :=
  js_map_set eqb m k (js_or_zero (js_map_get eqb m k) + 1).

(** [data.forEach(x => map.set(key, (map.get(key) || 0) + 1))] followed by
    [Array.from(map.entries())]. *)
Definition tally {K} (eqb : K -> K -> bool) (keys : list K) : list (K * Z) :=
  fold_left (bump eqb) keys [].

(** The count a Map holds for a key, 0 when the key is absent. *)
Definition value_at {K} (eqb : K -> K -> bool) (m : list (K * Z)) (k : K) : Z :=
  js_or_zero (js_map_get eqb m k).

(** [new Date(created_at).toISOString().split('T')[0]]: the UTC calendar day,
    as a day number. *)
Definition iso_date (created_at : Z) : Z := date_of created_at.

(** The body shared by fetchUserGrowth and fetchItemGrowth, over the
    created_at values of the rows the caller can read:
    [.gte('created_at', startDate).lte('created_at', endDate).order('created_at')],
    then the count by day. *)
Definition growth_by_day (created : list Z) (startDate endDate : Z) : list (Z * Z) :=
  tally Z.eqb
    (map iso_date
       (order_by Z.leb
          (filter (fun c => (startDate <=? c) && (c <=? endDate)) created))).

Definition fetchUserGrowth (visible : list users_row) (startDate endDate : Z) : list (Z * Z) :=
  growth_by_day (map users_created_at visible) startDate endDate.

Definition fetchItemGrowth (visible : list items_row) (startDate endDate : Z) : list (Z * Z) :=
  growth_by_day (map items_created_at visible) startDate endDate.

(** [.from('items').select('category').eq('is_available', true)], then the
    count by category. *)
Definition fetchCategoryDistribution (visible : list items_row) : list (string * Z) :=
  tally String.eqb
    (map items_category (filter (fun i => Bool.eqb (items_is_available i) true) visible)).

(** ** App.tsx: routes and their guards *)

Inductive admin_page :=
| AdminDashboard | UserManagement | ItemManagement | ReportsManagement
| Analytics | AdminSettings.

Inductive route :=
| route_home | route_item | route_auth | route_dashboard | route_items_new
| route_profile | route_admin (child : admin_page).

Inductive page :=
| HomePage | ItemDetailPage | AuthForm | Dashboard | ItemForm | UserProfile
| AdminLayout (outlet : admin_page).

(** What a route element renders: a page, the loading spinner, or
    [<Navigate to=... />]. *)
Inductive element :=
| Render (p : page)
| Spinner
| Navigate (to : route) (replace : bool).

(** [useAuth()] gives the signed-in user, if any, and the loading flag. *)
Definition ProtectedRoute {U} (user : option U) (loading : bool) (children : element) : element :=
  if loading then Spinner
  else match user with
       | Some _ => children
       | None => Navigate route_auth false
       end.

Definition ProtectedAdminRoute {U} (user : option U) (loading : bool) (children : element)
  : element :=
  if loading then Spinner
  else match user with
       | None => Navigate route_auth true
       | Some _ => children
       end.

Definition Auth {U} (user : option U) : element :=
  match user with
  | Some _ => Navigate route_dashboard true
  | None => Render AuthForm
  end.

Definition AppContent {U} (user : option U) (loading : bool) (r : route) : element :=
  match r with
  | route_home => Render HomePage
  | route_item => Render ItemDetailPage
  | route_auth => Auth user
  | route_dashboard => ProtectedRoute user loading (Render Dashboard)
  | route_items_new => ProtectedRoute user loading (Render ItemForm)
  | route_profile => ProtectedRoute user loading (Render UserProfile)
  | route_admin child => ProtectedAdminRoute user loading (Render (AdminLayout child))
  end.

(** Following [Navigate] elements, at most [hops] times. *)
Fixpoint settle {U} (hops : nat) (user : option U) (loading : bool) (r : route)
  : option element :=
  match AppContent user loading r with
  | Navigate to _ =>
      match hops with
      | O => None
      | S h => settle h user loading to
      end
  | e => Some e
  end.

(** The paths of the admin routes: the index route and the children of
    [/admin]. *)
Definition admin_route_paths : list (string * admin_page) :=
  [ ("/admin", AdminDashboard); ("/admin/users", UserManagement);
    ("/admin/items", ItemManagement); ("/admin/reports", ReportsManagement);
    ("/admin/analytics", Analytics); ("/admin/settings", AdminSettings) ]%string.

(** AdminLayout.tsx: the sidebar entries, name and href. *)
Definition navigation : list (string * string) :=
  [ ("Dashboard", "/admin"); ("Users", "/admin/users"); ("Items", "/admin/items");
    ("Messages", "/admin/messages"); ("Reports", "/admin/reports");
    ("Analytics", "/admin/analytics"); ("Settings", "/admin/settings") ]%string.

(** [navigation.find(item => item.href === location.pathname)?.name || 'Admin Panel'] *)
Definition header_title (pathname : string) : string :=
  match find (fun item => String.eqb (snd item) pathname) navigation with
  | Some item => if String.eqb (fst item) EmptyString then "Admin Panel" else fst item
  | None => "Admin Panel"
  end.

(** ** ReportsManagement: the list state *)

Inductive report_status := pending | reviewed | resolved | dismissed.

Inductive report_reason := inappropriate | spam | fake | scam | other.

Record Report := {
  report_id : string;
  reporter_id : option string;
  reported_item_id : option string;
  reported_user_id : option string;
  reason : report_reason;
  description : option string;
  status : report_status;
  admin_notes : option string;
  created_at : Z;
  updated_at : Z;
  reporter : option (string * string);
  reported_item : option (string * string);
  reported_user : option (string * string) }.

Definition report_status_eqb (a b : report_status) : bool :=
  match a, b with
  | pending, pending | reviewed, reviewed | resolved, resolved
  | dismissed, dismissed => true
  | _, _ => false
  end.

(** [notes || null]: absent and empty notes both become null. *)
Definition notes_or_null (notes : option string) : option string :=
  match notes with
  | Some s => if String.eqb s EmptyString then None else Some s
  | None => None
  end.

(** [{ ...report, status, admin_notes: notes || null, updated_at }] *)
Definition with_status (r : Report) (st : report_status) (notes : option string)
    (now : Z) : Report :=
  {| report_id := report_id r; reporter_id := reporter_id r;
     reported_item_id := reported_item_id r; reported_user_id := reported_user_id r;
     reason := reason r; description := description r;
     status := st; admin_notes := notes_or_null notes;
     created_at := created_at r; updated_at := now;
     reporter := reporter r; reported_item := reported_item r;
     reported_user := reported_user r |}.

Record reports_state := {
  reports_list : list Report;
  selectedReport : option Report }.

(** handleUpdateReportStatus, given whether the update sent to the server
    came back with an error: on an error the state is left alone; otherwise
    the reports with this id are rewritten, and the selected report too,
    though without a new updated_at. *)
Definition handleUpdateReportStatus (server_error : bool) (now : Z) (st : reports_state)
    (reportId : string) (new_status : report_status) (notes : option string)
  : reports_state :=
  if server_error then st
  else
    {| reports_list :=
         map (fun r => if String.eqb (report_id r) reportId
                       then with_status r new_status notes now else r)
             (reports_list st);
       selectedReport :=
         match selectedReport st with
         | Some sel =>
             if String.eqb (report_id sel) reportId
             then Some (with_status sel new_status notes (updated_at sel))
             else Some sel
         | None => None
         end |}.

(** [reports.filter(report => !filterStatus || report.status === filterStatus)];
    the empty choice of the select is [None]. *)
Definition filteredReports (rs : list Report) (filterStatus : option report_status)
  : list Report :=
  filter (fun r => match filterStatus with
                   | None => true
                   | Some s => report_status_eqb (status r) s
                   end) rs.

(** The number on a stat card: [reports.filter(r => r.status === status).length]. *)
Definition status_count (rs : list Report) (s : report_status) : Z :=
  count (filter (fun r => report_status_eqb (status r) s) rs).

(** ** ItemManagement: availability and deletion *)

(** [.from('items').update({ is_available: !currentStatus }).eq('id', itemId)]
    on the items table, when the update is permitted. *)
Definition update_is_available (rows : list items_row) (itemId : N) (value : bool)
  : list items_row :=
  map (fun i => if N.eqb (items_id i) itemId
                then {| items_id := items_id i; items_category := items_category i;
                        items_is_available := value;
                        items_created_at := items_created_at i |}
                else i) rows.

(** handleToggleAvailability on the list the component holds, given whether
    the server reported an error. *)
Definition handleToggleAvailability (server_error : bool) (shown : list items_row)
    (itemId : N) (currentStatus : bool) : list items_row :=
  if server_error then shown
  else update_is_available shown itemId (negb currentStatus).

(** handleDeleteItem, after the confirmation: [prev.filter(item => item.id !== itemId)]. *)
Definition handleDeleteItem (server_error : bool) (shown : list items_row) (itemId : N)
  : list items_row :=
  if server_error then shown
  else filter (fun i => negb (N.eqb (items_id i) itemId)) shown.

(** ** AdminDashboard: the statistics *)

(** The result of one query: [count] and [data] are null when the query
    failed; [data] is also null for a [head: true] query. *)
Record query_result (R : Type) := {
  result_count : option Z;
  result_data : option (list R) }.
Arguments result_count {R} _.
Arguments result_data {R} _.

(** [select('id', { count: 'exact', head: true })] over the rows the caller
    can read. *)
Definition select_head {R} (rows : list R) : query_result R :=
  {| result_count := Some (count rows); result_data := None |}.

(** [select(..., { count: 'exact' })]: the count and the rows. *)
Definition select_exact {R} (rows : list R) : query_result R :=
  {| result_count := Some (count rows); result_data := Some rows |}.

Definition failed_query {R} : query_result R :=
  {| result_count := None; result_data := None |}.

Record DashboardStats := {
  totalUsers : Z;
  totalItems : Z;
  availableItems : Z;
  totalMessages : Z;
  pendingReports : Z;
  totalViews : Z;
  totalFavorites : Z;
  newUsersToday : Z;
  newItemsToday : Z }.

(** [data?.filter(p).length || 0] *)
Definition filtered_length {R} (data : option (list R)) (p : R -> bool) : Z :=
  match data with
  | Some rows => js_or_zero (Some (count (filter p rows)))
  | None => 0
  end.

(** The [setStats] call of fetchDashboardData, from the eight results. *)
Definition dashboard_stats
    (usersResult : query_result users_row) (itemsResult : query_result items_row)
    (messagesResult : query_result messages_row) (reportsResult : query_result reports_row)
    (viewsResult : query_result item_views_row)
    (favoritesResult : query_result favorites_row)
    (newUsersResult : query_result users_row) (newItemsResult : query_result items_row)
  : DashboardStats :=
  {| totalUsers := js_or_zero (result_count usersResult);
     totalItems := js_or_zero (result_count itemsResult);
     availableItems := filtered_length (result_data itemsResult) items_is_available;
     totalMessages := js_or_zero (result_count messagesResult);
     pendingReports :=
       filtered_length (result_data reportsResult)
                       (fun r => String.eqb (reports_status r) "pending");
     totalViews := js_or_zero (result_count viewsResult);
     totalFavorites := js_or_zero (result_count favoritesResult);
     newUsersToday := js_or_zero (result_count newUsersResult);
     newItemsToday := js_or_zero (result_count newItemsResult) |}.

(** fetchDashboardData when every query succeeds and returns every row.
    [.gte('created_at', new Date().toISOString().split('T')[0])] compares
    with midnight of the browser's UTC day. *)
Definition fetchDashboardData (browser_now : Z) (db : database) : DashboardStats :=
  let today := timestamp_of_date (iso_date browser_now) in
  dashboard_stats
    (select_head (users db)) (select_exact (items db)) (select_head (messages db))
    (select_exact (reports db)) (select_head (item_views db))
    (select_head (favorites db))
    (select_head (filter (fun u => today <=? users_created_at u) (users db)))
    (select_head (filter (fun i => today <=? items_created_at i) (items db))).

(** ** Further quantities the statements use *)

(** Whether the text given as target id is not a uuid. *)
Definition malformed_id (id : option string) : bool :=
  match id with
  | Some txt => match uuid_in txt with Some _ => false | None => true end
  | None => false
  end.

(** The users the window keeps: created from the first day of the window
    through today. *)
Definition in_window (s : session) (w : Z) (u : users_row) : bool :=
  (current_date s - w <=? date_of (users_created_at u)) &&
  (date_of (users_created_at u) <=? current_date s).

(** One log row written by the member with id 7. *)
Definition one_log : list admin_logs_row :=
  [{| log_id := 4096%N; log_admin_id := Some 7%N; log_action := "ban_user";
      log_target_type := None; log_target_id := None; log_details := None;
      log_ip_address := None; log_user_agent := None; log_created_at := 5 |}].

(** The reports with id [reportId] whose status is, or is not, [s]. *)
Definition moved_in (rs : list Report) (reportId : string) (s : report_status) : Z :=
  count (filter (fun r => String.eqb (report_id r) reportId &&
                          negb (report_status_eqb (status r) s)) rs).

Definition moved_out (rs : list Report) (reportId : string) (s : report_status) : Z :=
  count (filter (fun r => String.eqb (report_id r) reportId &&
                          report_status_eqb (status r) s) rs).

(** * Static analysis of the three table functions *)

Lemma analyse_platform_analytics : analyse PlatformAnalytics.fn = Ok tt.
Proof. reflexivity. Qed.

(** Column 3 of the growth query is [SUM] over a bigint, a numeric, where the
    function declares bigint. *)
Lemma analyse_user_growth : analyse UserGrowth.fn = Error datatype_mismatch.
Proof. reflexivity. Qed.

Lemma user_growth_third_column :
  map type_of (fn_select_list UserGrowth.fn) = [Some t_date; Some t_bigint; Some t_numeric].
Proof. reflexivity. Qed.

(** [SUM(item_count)] inside [total_items] names the column of
    [category_counts] and the RETURNS TABLE column [item_count]. *)
Lemma analyse_category_distribution :
  analyse CategoryDistribution.fn = Error ambiguous_column.
Proof. reflexivity. Qed.

Lemma category_distribution_ambiguous_ref :
  filter (ambiguous (fn_variables CategoryDistribution.fn))
         (fn_column_refs CategoryDistribution.fn) = [bare "item_count"].
Proof. reflexivity. Qed.

(** * Relational operators *)

Lemma usecs_per_day_pos : 0 < usecs_per_day.
Proof. reflexivity. Qed.

Lemma date_of_midnight_plus (d k : Z) :
  date_of (timestamp_of_date d + interval_days 1 * k) = d + k.
Proof.
  unfold date_of, timestamp_of_date, interval_days.
  pose proof usecs_per_day_pos as HU. generalize dependent usecs_per_day. intros U HU.
  replace (d * U + U * 1 * k) with ((d + k) * U) by ring.
  apply Z.div_mul. lia.
Qed.

Lemma date_of_ge (d c : Z) : d <= date_of c <-> timestamp_of_date d <= c.
Proof.
  unfold date_of, timestamp_of_date.
  pose proof usecs_per_day_pos as HU. generalize dependent usecs_per_day. intros U HU.
  split; intros H.
  - pose proof (Z.mul_div_le c U HU). nia.
  - apply Z.div_le_lower_bound; lia.
Qed.

Lemma generate_series_days (d w : Z) :
  0 <= w ->
  map date_of (generate_series (timestamp_of_date d - interval_days w)
                               (timestamp_of_date d) (interval_days 1))
  = days_from (d - w) (S (Z.to_nat w)).
Proof.
  intros Hw. unfold generate_series.
  assert (Hstart : timestamp_of_date d - interval_days w = timestamp_of_date (d - w)).
  { unfold timestamp_of_date, interval_days. ring. }
  rewrite Hstart.
  assert (Hlt : (timestamp_of_date d <? timestamp_of_date (d - w)) = false).
  { apply Z.ltb_ge. unfold timestamp_of_date. pose proof usecs_per_day_pos. nia. }
  rewrite Hlt.
  assert (Hq : (timestamp_of_date d - timestamp_of_date (d - w)) / interval_days 1 = w).
  { unfold timestamp_of_date, interval_days.
    pose proof usecs_per_day_pos as HU. generalize dependent usecs_per_day. intros U HU.
    replace (d * U - (d - w) * U) with (w * (U * 1)) by ring.
    apply Z.div_mul. lia. }
  rewrite Hq, map_map. unfold days_from. apply map_ext. intros k.
  apply date_of_midnight_plus.
Qed.

Lemma generate_series_empty (d w : Z) :
  w < 0 ->
  generate_series (timestamp_of_date d - interval_days w)
                  (timestamp_of_date d) (interval_days 1) = [].
Proof.
  intros Hw. unfold generate_series.
  assert (Hlt : (timestamp_of_date d <? timestamp_of_date d - interval_days w) = true).
  { apply Z.ltb_lt. unfold interval_days. pose proof usecs_per_day_pos. nia. }
  now rewrite Hlt.
Qed.

Lemma flat_map_single {A B} (f : A -> B) (g : A -> list B) (l : list A) :
  (forall a, In a l -> g a = [f a]) -> flat_map g l = map f l.
Proof.
  induction l as [|a l IH]; intros H; simpl; [reflexivity|].
  rewrite (H a (or_introl eq_refl)). simpl. f_equal. apply IH.
  intros b Hb. apply H. now right.
Qed.

Lemma filter_eqb_NoDup (d : Z) (l : list Z) :
  NoDup l -> filter (fun k => d =? k) l = if in_dec Z.eq_dec d l then [d] else [].
Proof.
  intros H. induction H as [|x t Hx Ht IH]; simpl; [reflexivity|].
  destruct (Z.eqb_spec d x) as [->|Hne].
  - destruct (Z.eq_dec x x) as [E|E]; [|contradiction].
    rewrite IH. destruct (in_dec Z.eq_dec x t); [contradiction|reflexivity].
  - rewrite IH. destruct (Z.eq_dec x d) as [E|E]; [congruence|].
    destruct (in_dec Z.eq_dec d t); reflexivity.
Qed.

Lemma filter_group_count (d : Z) (keys : list Z) :
  filter (fun du : Z * Z => d =? fst du) (group_count Z.eq_dec keys) =
  if in_dec Z.eq_dec d keys then [(d, Z.of_nat (count_occ Z.eq_dec keys d))] else [].
Proof.
  unfold group_count.
  set (g := fun k => (k, Z.of_nat (count_occ Z.eq_dec keys k))).
  assert (E : forall l, filter (fun du : Z * Z => d =? fst du) (map g l) =
                        map g (filter (fun k => d =? k) l)).
  { induction l as [|x l IH]; simpl; [reflexivity|].
    destruct (d =? x); simpl; now rewrite IH. }
  rewrite E, filter_eqb_NoDup by apply NoDup_nodup.
  destruct (in_dec Z.eq_dec d (nodup Z.eq_dec keys)) as [Hin|Hn];
    destruct (in_dec Z.eq_dec d keys) as [Hin'|Hn']; try reflexivity.
  - apply nodup_In in Hin. contradiction.
  - apply (nodup_In Z.eq_dec) in Hin'. contradiction.
Qed.

Lemma left_join_group_count (dates keys : list Z) :
  left_join (fun ds (du : Z * Z) => ds =? fst du) dates (group_count Z.eq_dec keys)
  = map (joined_row keys) dates.
Proof.
  unfold left_join. apply flat_map_single. intros d _.
  rewrite filter_group_count. unfold joined_row.
  destruct (in_dec Z.eq_dec d keys); reflexivity.
Qed.

Lemma coalesced_joined_row (keys : list Z) (d : Z) :
  UserGrowth.coalesced_new_users (joined_row keys d) = Z.of_nat (count_occ Z.eq_dec keys d).
Proof.
  unfold UserGrowth.coalesced_new_users, joined_row. simpl.
  destruct (in_dec Z.eq_dec d keys) as [Hin|Hn]; simpl; [reflexivity|].
  now rewrite (proj1 (count_occ_not_In Z.eq_dec keys d) Hn).
Qed.

Lemma order_by_sorted {A} (le : A -> A -> bool) (l : list A) :
  Sorted (fun a b => le a b = true) l -> order_by le l = l.
Proof.
  intros H. induction H as [|x t Hs IH Hd]; [reflexivity|].
  change (order_by le (x :: t)) with (insert_by le x (order_by le t)). rewrite IH.
  destruct Hd as [|y t' Hxy]; simpl; [reflexivity|]. now rewrite Hxy.
Qed.

Lemma Sorted_map_seq {A} (R : A -> A -> Prop) (g : nat -> A) (a n : nat) :
  (forall k, R (g k) (g (S k))) -> Sorted R (map g (seq a n)).
Proof.
  intros H. revert a. induction n as [|n IH]; intros a; simpl; [constructor|].
  constructor; [apply IH|].
  destruct n; simpl; constructor. apply H.
Qed.

(** * The growth series *)

Lemma count_occ_map_filter {A} (f : A -> Z) (l : list A) (d : Z) :
  Z.of_nat (count_occ Z.eq_dec (map f l) d) = count (filter (fun x => f x =? d) l).
Proof.
  unfold count. f_equal. induction l as [|a l IH]; simpl; [reflexivity|].
  destruct (Z.eq_dec (f a) d) as [E|E].
  - rewrite (proj2 (Z.eqb_eq _ _) E). simpl. now rewrite IH.
  - rewrite (proj2 (Z.eqb_neq _ _) E). exact IH.
Qed.

Lemma window_keeps_day (us : list users_row) (lo d : Z) :
  lo <= d ->
  count_occ Z.eq_dec
    (map (fun u => date_of (users_created_at u))
         (filter (fun u => timestamp_of_date lo <=? users_created_at u) us)) d
  = count_occ Z.eq_dec (map (fun u => date_of (users_created_at u)) us) d.
Proof.
  intros Hd. induction us as [|u us IH]; simpl; [reflexivity|].
  destruct (Z.leb_spec (timestamp_of_date lo) (users_created_at u)) as [Hin|Hout]; simpl.
  - now rewrite IH.
  - destruct (Z.eq_dec (date_of (users_created_at u)) d) as [E|E]; [|exact IH].
    exfalso. assert (H : lo <= date_of (users_created_at u)) by lia.
    apply date_of_ge in H. lia.
Qed.

Lemma filter_all {A} (f : A -> bool) (l : list A) :
  (forall x, In x l -> f x = true) -> filter f l = l.
Proof.
  induction l as [|a l IH]; intros H; simpl; [reflexivity|].
  rewrite (H a (or_introl eq_refl)). f_equal. apply IH. intros x Hx. apply H. now right.
Qed.

Lemma filter_none {A} (f : A -> bool) (l : list A) :
  (forall x, In x l -> f x = false) -> filter f l = [].
Proof.
  induction l as [|a l IH]; intros H; simpl; [reflexivity|].
  rewrite (H a (or_introl eq_refl)). apply IH. intros x Hx. apply H. now right.
Qed.

Lemma filter_map_comm {A B} (f : A -> B) (p : B -> bool) (l : list A) :
  filter p (map f l) = map f (filter (fun a => p (f a)) l).
Proof.
  induction l as [|a l IH]; simpl; [reflexivity|].
  destruct (p (f a)); simpl; now rewrite IH.
Qed.

Lemma filter_days_from (lo : Z) (n k : nat) :
  (k < n)%nat ->
  filter (fun d => d <=? lo + Z.of_nat k) (days_from lo n) = days_from lo (S k).
Proof.
  intros Hk. unfold days_from. rewrite filter_map_comm.
  replace n with (S k + (n - S k))%nat by lia.
  rewrite seq_app, filter_app, filter_all, filter_none, app_nil_r; [reflexivity| |].
  - intros i Hi. apply in_seq in Hi. apply Z.leb_gt. lia.
  - intros i Hi. apply in_seq in Hi. apply Z.leb_le. lia.
Qed.

Lemma days_from_S (lo : Z) (n : nat) :
  days_from lo (S n) = days_from lo n ++ [lo + Z.of_nat n].
Proof. unfold days_from. now rewrite seq_S, map_app. Qed.

Lemma fold_add_app (l1 l2 : list Z) :
  fold_right Z.add 0 (l1 ++ l2) = fold_right Z.add 0 l1 + fold_right Z.add 0 l2.
Proof. induction l1 as [|a l1 IH]; simpl; lia. Qed.

Lemma signups_between_same (db : database) (d : Z) :
  signups_between db d d = signups_on db d.
Proof.
  unfold signups_between, signups_on. f_equal. apply filter_ext. intros u.
  destruct (Z.eqb_spec (date_of (users_created_at u)) d) as [->|E].
  - now rewrite Z.leb_refl.
  - destruct (Z.leb_spec d (date_of (users_created_at u)));
      destruct (Z.leb_spec (date_of (users_created_at u)) d); simpl; try reflexivity; lia.
Qed.

Lemma signups_between_next (db : database) (lo d : Z) :
  lo <= d + 1 ->
  signups_between db lo (d + 1) = signups_between db lo d + signups_on db (d + 1).
Proof.
  intros H. unfold signups_between, signups_on, count.
  rewrite <- Nat2Z.inj_add. f_equal.
  induction (users db) as [|u us IH]; simpl; [reflexivity|].
  destruct (Z.leb_spec lo (date_of (users_created_at u)));
    destruct (Z.leb_spec (date_of (users_created_at u)) (d + 1));
    destruct (Z.leb_spec (date_of (users_created_at u)) d);
    destruct (Z.eqb_spec (date_of (users_created_at u)) (d + 1));
    simpl; try lia.
Qed.

(** The per-day counts summed over the first [k+1] days of the window. *)
Lemma sum_signups_days (db : database) (lo : Z) (k : nat) :
  fold_right Z.add 0 (map (signups_on db) (days_from lo (S k)))
  = signups_between db lo (lo + Z.of_nat k).
Proof.
  induction k as [|k IH].
  - unfold days_from. cbn [seq map fold_right Z.of_nat].
    rewrite !Z.add_0_r. symmetry. apply signups_between_same.
  - rewrite (days_from_S lo (S k)), map_app, fold_add_app, IH.
    cbn [map fold_right]. rewrite Z.add_0_r.
    replace (lo + Z.of_nat (S k)) with (lo + Z.of_nat k + 1) by lia.
    rewrite signups_between_next by lia. reflexivity.
Qed.

Lemma In_days_from (lo : Z) (n : nat) (d : Z) :
  In d (days_from lo n) <-> exists k, (k < n)%nat /\ d = lo + Z.of_nat k.
Proof.
  unfold days_from. rewrite in_map_iff. split.
  - intros (k & <- & Hk). apply in_seq in Hk. exists k. split; [lia|reflexivity].
  - intros (k & Hk & ->). exists k. split; [reflexivity|]. apply in_seq. lia.
Qed.

Lemma user_growth_date_series (s : session) (w : Z) :
  0 <= w ->
  UserGrowth.date_series s w = days_from (current_date s - w) (S (Z.to_nat w)).
Proof.
  intros Hw. unfold UserGrowth.date_series, UserGrowth.window_start.
  now apply generate_series_days.
Qed.

Lemma user_growth_joined (s : session) (db : database) (w : Z) :
  0 <= w ->
  UserGrowth.joined s db w =
  map (joined_row
         (map (fun u => date_of (users_created_at u))
              (filter (fun u => UserGrowth.window_start s w <=? users_created_at u)
                      (users db))))
      (days_from (current_date s - w) (S (Z.to_nat w))).
Proof.
  intros Hw. unfold UserGrowth.joined, UserGrowth.daily_users.
  rewrite user_growth_date_series by assumption.
  apply left_join_group_count.
Qed.

(** The rows of the growth query, for a window of [w >= 0] days. *)
Lemma user_growth_query_rows (s : session) (db : database) (w : Z) :
  0 <= w ->
  UserGrowth.query s db w =
  map (growth_row db (current_date s - w))
      (days_from (current_date s - w) (S (Z.to_nat w))).
Proof.
  intros Hw. unfold UserGrowth.query. rewrite user_growth_joined by assumption.
  set (lo := current_date s - w). set (n := S (Z.to_nat w)).
  assert (Hstart : UserGrowth.window_start s w = timestamp_of_date lo).
  { unfold UserGrowth.window_start, timestamp_of_date, interval_days, lo. ring. }
  rewrite Hstart.
  set (keys := map _ (filter _ (users db))).
  assert (Hnew : forall d, lo <= d ->
            UserGrowth.coalesced_new_users (joined_row keys d) = signups_on db d).
  { intros d Hd. rewrite coalesced_joined_row. unfold keys.
    rewrite window_keeps_day by assumption. apply count_occ_map_filter. }
  rewrite map_map.
  transitivity (order_by (fun a b => UserGrowth.date a <=? UserGrowth.date b)
                  (map (growth_row db lo) (days_from lo n))).
  - f_equal. apply map_ext_in. intros d Hd.
    apply In_days_from in Hd. destruct Hd as (k & Hk & ->).
    unfold growth_row. f_equal.
    + apply Hnew. lia.
    + unfold UserGrowth.running_sum.
      rewrite filter_map_comm, map_map.
      change (fun a => fst (joined_row keys a) <=? fst (joined_row keys (lo + Z.of_nat k)))
        with (fun a => a <=? lo + Z.of_nat k).
      rewrite filter_days_from by assumption.
      rewrite <- sum_signups_days. f_equal. apply map_ext_in.
      intros d Hd. apply In_days_from in Hd. destruct Hd as (j & _ & ->).
      apply Hnew. lia.
  - apply order_by_sorted. unfold days_from. rewrite map_map.
    apply Sorted_map_seq. intros k. simpl. apply Z.leb_le. lia.
Qed.

Lemma user_growth_date_series_negative (s : session) (w : Z) :
  w < 0 -> UserGrowth.date_series s w = [].
Proof.
  intros Hw. unfold UserGrowth.date_series, UserGrowth.window_start.
  rewrite generate_series_empty by assumption. reflexivity.
Qed.

Lemma user_growth_query_negative (s : session) (db : database) (w : Z) :
  w < 0 -> UserGrowth.query s db w = [].
Proof.
  intros Hw.
  assert (E : UserGrowth.joined s db w = []).
  { unfold UserGrowth.joined. now rewrite user_growth_date_series_negative. }
  unfold UserGrowth.query. now rewrite E.
Qed.

Lemma nth_growth_rows (db : database) (lo : Z) (n i : nat) (dflt : UserGrowth.row) :
  (i < n)%nat ->
  nth i (map (growth_row db lo) (days_from lo n)) dflt = growth_row db lo (lo + Z.of_nat i).
Proof.
  intros Hi. unfold days_from. rewrite map_map.
  rewrite (nth_indep _ dflt (growth_row db lo (lo + Z.of_nat 0)))
    by (rewrite length_map, length_seq; exact Hi).
  rewrite (map_nth (fun k => growth_row db lo (lo + Z.of_nat k))).
  now rewrite seq_nth.
Qed.

(** The series computed by the query of get_user_growth_data for a window of
    [w >= 0] days: [w+1] rows, one for each day from today-w through today
    in this order; new_users is the number of users created on the row's
    day; cumulative_users is new_users on the first row and the previous
    row's cumulative_users plus new_users on each later row; and it is the
    number of users created from the first day of the window through the
    row's day. *)
Lemma user_growth_query_series (s : session) (db : database) (w : Z)
    (dflt : UserGrowth.row) :
  0 <= w ->
  let rows := UserGrowth.query s db w in
  List.length rows = Z.to_nat (w + 1) /\
  (forall i, (i < List.length rows)%nat ->
     UserGrowth.date (nth i rows dflt) = current_date s - w + Z.of_nat i) /\
  (forall r, In r rows -> UserGrowth.new_users r = signups_on db (UserGrowth.date r)) /\
  UserGrowth.cumulative_users (nth 0 rows dflt) = UserGrowth.new_users (nth 0 rows dflt) /\
  (forall i, (S i < List.length rows)%nat ->
     UserGrowth.cumulative_users (nth (S i) rows dflt) =
     UserGrowth.cumulative_users (nth i rows dflt) + UserGrowth.new_users (nth (S i) rows dflt)) /\
  (forall r, In r rows ->
     UserGrowth.cumulative_users r =
     signups_between db (current_date s - w) (UserGrowth.date r)).
Proof.
  intros Hw rows. subst rows. rewrite user_growth_query_rows by assumption.
  set (lo := current_date s - w).
  assert (Hlen : List.length (map (growth_row db lo) (days_from lo (S (Z.to_nat w))))
                 = S (Z.to_nat w)).
  { unfold days_from. now rewrite !length_map, length_seq. }
  rewrite Hlen. split; [lia|]. split; [|split; [|split; [|split]]].
  - intros i Hi. now rewrite nth_growth_rows.
  - intros r Hr. apply in_map_iff in Hr. destruct Hr as (d & <- & _). reflexivity.
  - rewrite nth_growth_rows by lia.
    cbn [growth_row UserGrowth.cumulative_users UserGrowth.new_users Z.of_nat].
    rewrite Z.add_0_r. apply signups_between_same.
  - intros i Hi. rewrite !nth_growth_rows by lia.
    cbn [growth_row UserGrowth.cumulative_users UserGrowth.new_users].
    replace (lo + Z.of_nat (S i)) with (lo + Z.of_nat i + 1) by lia.
    apply signups_between_next. lia.
  - intros r Hr. apply in_map_iff in Hr. destruct Hr as (d & <- & _). reflexivity.
Qed.

(** Users created before the first day of the window do not change the
    series the query computes. *)
Lemma signups_between_window (db : database) (lo hi : Z) (us : list users_row) :
  (forall u, In u us -> date_of (users_created_at u) < lo) ->
  signups_between (with_users db (us ++ users db)) lo hi = signups_between db lo hi.
Proof.
  intros H. unfold signups_between. simpl. rewrite filter_app, filter_none, app_nil_l.
  - reflexivity.
  - intros u Hu. apply H in Hu. apply andb_false_iff. left. apply Z.leb_gt. lia.
Qed.

Lemma signups_on_window (db : database) (lo d : Z) (us : list users_row) :
  (forall u, In u us -> date_of (users_created_at u) < lo) -> lo <= d ->
  signups_on (with_users db (us ++ users db)) d = signups_on db d.
Proof.
  intros H Hd. unfold signups_on. simpl. rewrite filter_app, filter_none, app_nil_l.
  - reflexivity.
  - intros u Hu. apply H in Hu. apply Z.eqb_neq. lia.
Qed.

Lemma user_growth_query_ignores_earlier_users (s : session) (db : database) (w : Z)
    (us : list users_row) :
  0 <= w ->
  (forall u, In u us -> date_of (users_created_at u) < current_date s - w) ->
  UserGrowth.query s (with_users db (us ++ users db)) w = UserGrowth.query s db w.
Proof.
  intros Hw H. rewrite !user_growth_query_rows by assumption.
  apply map_ext_in. intros d Hd. apply In_days_from in Hd. destruct Hd as (k & _ & ->).
  unfold growth_row. f_equal.
  - apply signups_on_window with (lo := current_date s - w); [assumption|lia].
  - now apply signups_between_window.
Qed.

(** * get_user_growth_data *)

(** C1 fails on the code. Whatever the window and the database,
    get_user_growth_data raises datatype_mismatch and returns no series: the
    third column of its query is a SUM over bigint, a numeric, and the
    function declares cumulative_users bigint.  With three signups on day 99
    and two on day 100, a window of one day ending on day 100 gives the
    error; the query itself computes the rows (99,3,3) and (100,2,5). *)
Theorem get_user_growth_data_raises :
  (forall s db w, UserGrowth.get_user_growth_data s db w = Error datatype_mismatch) /\
  UserGrowth.get_user_growth_data (session_on 1 100) five_signups 1 = Error datatype_mismatch /\
  UserGrowth.query (session_on 1 100) five_signups 1 =
  [{| UserGrowth.date := 99; UserGrowth.new_users := 3; UserGrowth.cumulative_users := 3 |};
   {| UserGrowth.date := 100; UserGrowth.new_users := 2; UserGrowth.cumulative_users := 5 |}].
Proof.
  split; [|split].
  - intros s db w. reflexivity.
  - reflexivity.
  - vm_compute. reflexivity.
Qed.

(** C10 fails on the code for the same reason as C1: no running total is
    produced, the call ends in datatype_mismatch.  The totals the query
    computes are relative to the window: with six users in all, one of them
    created on day 12, the first row of a two-day window ending on day 100
    has new_users = 0 = cumulative_users. *)
Theorem get_user_growth_data_no_totals :
  UserGrowth.get_user_growth_data (session_on 1 100) five_signups 2 = Error datatype_mismatch /\
  count (users five_signups) = 6 /\
  UserGrowth.query (session_on 1 100) five_signups 2 =
  [{| UserGrowth.date := 98; UserGrowth.new_users := 0; UserGrowth.cumulative_users := 0 |};
   {| UserGrowth.date := 99; UserGrowth.new_users := 3; UserGrowth.cumulative_users := 3 |};
   {| UserGrowth.date := 100; UserGrowth.new_users := 2; UserGrowth.cumulative_users := 5 |}].
Proof.
  split; [reflexivity|]. split; [reflexivity|]. vm_compute. reflexivity.
Qed.

(** C2 as stated fails: for a window of -1 days the query has no row at all,
    and the call returns no single-row series. *)
Lemma user_growth_negative_window_no_row :
  UserGrowth.query (session_on 1 100) five_signups (-1) = [] /\
  forall r, UserGrowth.get_user_growth_data (session_on 1 100) five_signups (-1) <> Ok [r].
Proof.
  split; [vm_compute; reflexivity|]. intros r. discriminate.
Qed.

(** The pure query on a window of no or of a negative number of days. *)
Lemma user_growth_query_degenerate (s : session) (db : database) (w : Z) :
  w <= 0 ->
  UserGrowth.query s db w =
  if w =? 0
  then [{| UserGrowth.date := current_date s;
           UserGrowth.new_users := signups_on db (current_date s);
           UserGrowth.cumulative_users := signups_on db (current_date s) |}]
  else [].
Proof.
  intros Hw. destruct (Z.eqb_spec w 0) as [->|Hne].
  - rewrite user_growth_query_rows by lia. rewrite Z.sub_0_r.
    unfold days_from, growth_row. cbn [Z.to_nat seq map Z.of_nat].
    rewrite Z.add_0_r, signups_between_same. reflexivity.
  - apply user_growth_query_negative. lia.
Qed.

(** C2, as the code has it. For a window of W <= 0 days the query of
    get_user_growth_data is run with the first day today - W.  Where that
    day lies outside the range of the type timestamp, which ends with the
    year 294276, the query raises "timestamp out of range".  Otherwise, for
    W = 0 it computes exactly one row, for today, with new_users and
    cumulative_users both the number of users created today, and for W < 0
    it computes no rows. *)
Theorem user_growth_degenerate_window (s : session) (db : database) (w : Z) :
  w <= 0 ->
  user_growth_query_run s db w =
  if timestamp_in_range (UserGrowth.window_start s w)
  then Ok (if w =? 0
           then [{| UserGrowth.date := current_date s;
                    UserGrowth.new_users := signups_on db (current_date s);
                    UserGrowth.cumulative_users := signups_on db (current_date s) |}]
           else [])
  else Error datetime_field_overflow.
Proof.
  intros Hw. unfold user_growth_query_run.
  destruct (timestamp_in_range (UserGrowth.window_start s w)); [|reflexivity].
  now rewrite user_growth_query_degenerate.
Qed.

Lemma user_growth_degenerate_window_witness :
  0 <= 0 /\
  user_growth_query_run (session_on 1 100) five_signups 0 =
  Ok [{| UserGrowth.date := 100; UserGrowth.new_users := 2;
         UserGrowth.cumulative_users := 2 |}].
Proof.
  split; [lia|].
  exact (user_growth_degenerate_window (session_on 1 100) five_signups 0 (Z.le_refl 0)).
Defined.

(** A window of -110000000 days would begin after the year 294276, one of
    3000000 days before 4714 BC: both runs end in "timestamp out of range".
    A window of -1 days is run, and has no rows. *)
Lemma user_growth_window_beyond_range :
  user_growth_query_run (session_on 1 20759) five_signups (-110000000) =
  Error datetime_field_overflow /\
  user_growth_query_run (session_on 1 20759) five_signups 3000000 =
  Error datetime_field_overflow /\
  user_growth_query_run (session_on 1 20759) five_signups (-1) = Ok [].
Proof. repeat split; vm_compute; reflexivity. Qed.

(** * ORDER BY *)

Lemma insert_by_perm {A} (le : A -> A -> bool) (x : A) (l : list A) :
  Permutation (insert_by le x l) (x :: l).
Proof.
  induction l as [|y t IH]; simpl; [apply Permutation_refl|].
  destruct (le x y); [apply Permutation_refl|].
  eapply perm_trans; [apply perm_skip, IH | apply perm_swap].
Qed.

Lemma order_by_perm {A} (le : A -> A -> bool) (l : list A) :
  Permutation (order_by le l) l.
Proof.
  induction l as [|x t IH]; [apply Permutation_refl|].
  change (order_by le (x :: t)) with (insert_by le x (order_by le t)).
  eapply perm_trans; [apply insert_by_perm | apply perm_skip, IH].
Qed.

Section OrderTotal.
Context {A : Type} (le : A -> A -> bool).
Hypothesis le_total : forall a b, le a b = false -> le b a = true.

Lemma insert_by_sorted (x : A) (l : list A) :
  Sorted (fun a b => le a b = true) l ->
  Sorted (fun a b => le a b = true) (insert_by le x l).
Proof.
  intros H. induction H as [|y t Hs IH Hd]; simpl.
  - repeat constructor.
  - destruct (le x y) eqn:E.
    + repeat constructor; assumption.
    + constructor; [exact IH|].
      destruct Hd as [|z t' Hyz]; simpl.
      * constructor. now apply le_total.
      * destruct (le x z); constructor; [now apply le_total | assumption].
Qed.

Lemma order_by_is_sorted (l : list A) :
  Sorted (fun a b => le a b = true) (order_by le l).
Proof.
  induction l as [|x t IH]; [constructor|].
  change (order_by le (x :: t)) with (insert_by le x (order_by le t)).
  now apply insert_by_sorted.
Qed.
End OrderTotal.

(** * The category distribution *)

Lemma count_occ_string_filter {A} (f : A -> string) (l : list A) (c : string) :
  Z.of_nat (count_occ string_dec (map f l) c) = count (filter (fun x => String.eqb (f x) c) l).
Proof.
  unfold count. f_equal. induction l as [|a l IH]; simpl; [reflexivity|].
  destruct (string_dec (f a) c) as [E|E].
  - rewrite (proj2 (String.eqb_eq _ _) E). simpl. now rewrite IH.
  - rewrite (proj2 (String.eqb_neq _ _) E). exact IH.
Qed.

(** Over a duplicate-free list, the indicator of [a] sums to 1 or 0. *)
Lemma count_occ_NoDup_sum (a : string) (l : list string) :
  NoDup l ->
  fold_right Nat.add 0%nat (map (fun k => if string_dec a k then 1%nat else 0%nat) l)
  = if in_dec string_dec a l then 1%nat else 0%nat.
Proof.
  intros H. induction H as [|x t Hx Ht IH]; simpl; [reflexivity|].
  rewrite IH. destruct (string_dec a x) as [->|E].
  - destruct (string_dec x x) as [E'|E']; [|contradiction].
    destruct (in_dec string_dec x t); [contradiction|reflexivity].
  - destruct (string_dec x a) as [E'|E']; [congruence|].
    destruct (in_dec string_dec a t); reflexivity.
Qed.

(** The group sizes add up to the number of grouped rows. *)
Lemma group_sizes_sum (l : list string) :
  fold_right Nat.add 0%nat (map (count_occ string_dec l) (nodup string_dec l))
  = List.length l.
Proof.
  induction l as [|a l IH]; [reflexivity|].
  assert (E : forall m, NoDup m ->
            fold_right Nat.add 0%nat (map (count_occ string_dec (a :: l)) m) =
            (fold_right Nat.add 0%nat (map (count_occ string_dec l) m) +
             (if in_dec string_dec a m then 1 else 0))%nat).
  { intros m Hm. rewrite <- (count_occ_NoDup_sum a m Hm).
    clear Hm. induction m as [|k m IHm]; [reflexivity|].
    cbn [map fold_right]. rewrite IHm.
    destruct (string_dec a k) as [Ek|Ek].
    - rewrite (count_occ_cons_eq string_dec l Ek). lia.
    - rewrite (count_occ_cons_neq string_dec l Ek). lia. }
  simpl nodup. destruct (in_dec string_dec a l) as [Hin|Hn].
  - rewrite E by apply NoDup_nodup. rewrite IH.
    destruct (in_dec string_dec a (nodup string_dec l)) as [H|H]; simpl; [lia|].
    exfalso. apply H. now apply nodup_In.
  - cbn [map fold_right]. rewrite E by apply NoDup_nodup. rewrite IH.
    rewrite count_occ_cons_eq by reflexivity.
    rewrite (proj1 (count_occ_not_In string_dec l a) Hn).
    destruct (in_dec string_dec a (nodup string_dec l)) as [H|H]; simpl; [|lia].
    exfalso. apply Hn. now apply nodup_In in H.
Qed.

Lemma sum_group_count (l : list string) :
  fold_right Z.add 0 (map snd (group_count string_dec l)) = Z.of_nat (List.length l).
Proof.
  rewrite <- group_sizes_sum. unfold group_count. rewrite map_map. simpl.
  induction (nodup string_dec l) as [|k m IH]; simpl; [reflexivity|].
  rewrite IH. lia.
Qed.

Lemma cross_join_single {A B} (l : list A) (b : B) :
  cross_join l [b] = map (fun a => (a, b)) l.
Proof. unfold cross_join. now apply flat_map_single. Qed.

Lemma traverse_ok {A B} (f : A -> result B) (g : A -> B) (l : list A) :
  (forall a, In a l -> f a = Ok (g a)) -> traverse f l = Ok (map g l).
Proof.
  induction l as [|a l IH]; intros H; simpl; [reflexivity|].
  rewrite (H a (or_introl eq_refl)). simpl. rewrite IH; [reflexivity|].
  intros b Hb. apply H. now right.
Qed.

Lemma category_counts_nil (db : database) :
  filter items_is_available (items db) = [] -> CategoryDistribution.category_counts db = [].
Proof. intros H. unfold CategoryDistribution.category_counts. now rewrite H. Qed.

(** No available item: no group, so no row and no division. *)
Lemma category_query_no_available (db : database) :
  filter items_is_available (items db) = [] -> CategoryDistribution.query db = Ok [].
Proof.
  intros H. unfold CategoryDistribution.query.
  rewrite (category_counts_nil db H). reflexivity.
Qed.

Lemma total_items_available (db : database) :
  filter items_is_available (items db) <> [] ->
  CategoryDistribution.total_items db = [Some (available db)] /\ 0 < available db.
Proof.
  intros H. unfold CategoryDistribution.total_items, CategoryDistribution.category_counts, available.
  set (cats := map items_category (filter items_is_available (items db))).
  assert (Hlen : List.length cats = List.length (filter items_is_available (items db)))
    by apply length_map.
  assert (Hsum := sum_group_count cats).
  assert (Hpos : (0 < List.length (filter items_is_available (items db)))%nat).
  { destruct (filter items_is_available (items db)); [contradiction|simpl; lia]. }
  unfold count. split; [|lia].
  unfold sum.
  destruct (map snd (group_count string_dec cats)) eqn:E.
  - simpl in Hsum. lia.
  - rewrite Hsum, Hlen. reflexivity.
Qed.

(** The rows of the distribution query when something is available. *)
Lemma category_query_rows (db : database) :
  filter items_is_available (items db) <> [] ->
  CategoryDistribution.query db =
  Ok (order_by (fun a b => CategoryDistribution.item_count b <=? CategoryDistribution.item_count a)
        (map (distribution_row (available db)) (CategoryDistribution.category_counts db))).
Proof.
  intros H. destruct (total_items_available db H) as [Ht Hpos].
  unfold CategoryDistribution.query. rewrite Ht, cross_join_single.
  rewrite (traverse_ok _ (fun j => distribution_row (available db) (fst j))).
  - simpl. now rewrite map_map.
  - intros j Hj. apply in_map_iff in Hj. destruct Hj as (cc & <- & _).
    unfold CategoryDistribution.percentage_of. simpl.
    destruct (Z.eqb_spec (available db) 0) as [E|E]; [lia|reflexivity].
Qed.

Lemma Sorted_weaken {A} (R R' : A -> A -> Prop) (l : list A) :
  (forall a b, R a b -> R' a b) -> Sorted R l -> Sorted R' l.
Proof.
  intros H Hs. induction Hs as [|x t Hs IH Hd]; constructor; [exact IH|].
  destruct Hd; constructor. now apply H.
Qed.

Lemma available_pos_iff (db : database) :
  0 < available db <-> filter items_is_available (items db) <> [].
Proof.
  unfold available, count. destruct (filter items_is_available (items db)); simpl.
  - split; [lia|congruence].
  - split; [discriminate|lia].
Qed.

Lemma category_counts_keys (db : database) :
  map fst (CategoryDistribution.category_counts db) =
  nodup string_dec (map items_category (filter items_is_available (items db))).
Proof.
  unfold CategoryDistribution.category_counts, group_count.
  rewrite map_map. simpl. apply map_id.
Qed.

Lemma category_counts_size (db : database) (cc : string * Z) :
  In cc (CategoryDistribution.category_counts db) -> snd cc = available_in db (fst cc).
Proof.
  unfold CategoryDistribution.category_counts, group_count. intros H.
  apply in_map_iff in H. destruct H as (k & <- & _). simpl.
  apply count_occ_string_filter.
Qed.

Lemma available_category (db : database) (c : string) :
  In c (map items_category (filter items_is_available (items db))) <->
  exists i, In i (items db) /\ items_is_available i = true /\ items_category i = c.
Proof.
  rewrite in_map_iff. split.
  - intros (i & Hc & Hi). apply filter_In in Hi. exists i. tauto.
  - intros (i & Hi & Ha & Hc). exists i. split; [exact Hc|]. apply filter_In. tauto.
Qed.

(** What the query of get_category_distribution computes: one row for each
    category that has an available item and no other row, the row's
    item_count the number of available items of its category, its percentage
    that count times 100 over the number of available items, rounded to two
    decimals, and the rows in descending order of item_count.  With nothing
    available there are no rows. *)
Lemma category_query_distribution (db : database) :
  exists rows,
    CategoryDistribution.query db = Ok rows /\
    NoDup (map CategoryDistribution.category rows) /\
    (forall c, In c (map CategoryDistribution.category rows) <->
               exists i, In i (items db) /\ items_is_available i = true /\
                         items_category i = c) /\
    (forall r, In r rows ->
       CategoryDistribution.item_count r = available_in db (CategoryDistribution.category r) /\
       CategoryDistribution.percentage r =
       Some (CategoryDistribution.round_half_away
               (CategoryDistribution.item_count r * 100 * 100) (available db))) /\
    Sorted (fun a b => CategoryDistribution.item_count b <= CategoryDistribution.item_count a) rows.
Proof.
  destruct (filter items_is_available (items db)) as [|i0 av] eqn:Eav.
  - exists []. split; [now apply category_query_no_available|].
    split; [constructor|]. split; [|split; [intros r []|constructor]].
    intros c. simpl. split; [tauto|].
    intros (i & Hi & Ha & _).
    assert (Hin : In i (filter items_is_available (items db))) by (apply filter_In; tauto).
    rewrite Eav in Hin. exact Hin.
  - assert (Hne : filter items_is_available (items db) <> []) by (rewrite Eav; discriminate).
    clear Eav i0 av.
    eexists. split; [now apply category_query_rows|].
    set (le := fun a b => CategoryDistribution.item_count b <=? CategoryDistribution.item_count a).
    set (rows0 := map (distribution_row (available db)) (CategoryDistribution.category_counts db)).
    assert (Hperm : Permutation (order_by le rows0) rows0) by apply order_by_perm.
    assert (Hcat : map CategoryDistribution.category rows0 =
                   nodup string_dec (map items_category (filter items_is_available (items db)))).
    { unfold rows0. rewrite map_map. simpl. apply category_counts_keys. }
    split; [|split; [|split]].
    + apply (Permutation_NoDup (l := map CategoryDistribution.category rows0)).
      * apply Permutation_sym, Permutation_map, Hperm.
      * rewrite Hcat. apply NoDup_nodup.
    + intros c. rewrite <- available_category.
      rewrite <- (nodup_In string_dec
                    (map items_category (filter items_is_available (items db))) c).
      rewrite <- Hcat.
      split; apply Permutation_in; [|apply Permutation_sym]; apply Permutation_map, Hperm.
    + intros r Hr. apply (Permutation_in _ Hperm) in Hr.
      apply in_map_iff in Hr. destruct Hr as (cc & <- & Hcc). simpl.
      split; [now apply category_counts_size|reflexivity].
    + apply (Sorted_weaken (fun a b => le a b = true)).
      * intros a b. unfold le. apply Z.leb_le.
      * apply order_by_is_sorted. intros a b. unfold le.
        rewrite Z.leb_gt, Z.leb_le. lia.
Qed.

(** * Rounding *)

(** For a quotient that is not negative the rounded value is a nearest
    integer. *)
Lemma round_half_away_nearest (num den : Z) :
  0 <= num -> 0 < den ->
  - den <= 2 * num - 2 * den * CategoryDistribution.round_half_away num den < den.
Proof.
  intros Hn Hd. unfold CategoryDistribution.round_half_away.
  rewrite (Z.abs_eq num), (Z.abs_eq den), (Z.sgn_pos den) by lia.
  destruct (Z.eq_dec num 0) as [->|Hnz].
  - simpl. lia.
  - rewrite Z.sgn_pos by lia.
    pose proof (Z.mul_div_le (2 * num + den) (2 * den) ltac:(lia)).
    pose proof (Z.mul_succ_div_gt (2 * num + den) (2 * den) ltac:(lia)).
    set (q := (2 * num + den) / (2 * den)) in *. lia.
Qed.

Lemma total_percentage_perm (l l' : list CategoryDistribution.row) :
  Permutation l l' -> total_percentage l = total_percentage l'.
Proof.
  unfold total_percentage. induction 1; simpl; lia.
Qed.

Lemma percentages_deviation (t : Z) (l : list (string * Z)) :
  0 < t -> (forall cc, In cc l -> 0 <= snd cc) ->
  - (t * count l) <=
    2 * t * total_percentage (map (distribution_row t) l)
    - 2 * 10000 * fold_right Z.add 0 (map snd l)
  <= t * count l.
Proof.
  intros Ht Hl. unfold total_percentage, count.
  induction l as [|cc l IH]; [simpl; lia|].
  assert (IH' := IH (fun x Hx => Hl x (or_intror Hx))). clear IH.
  assert (Hcc := Hl cc (or_introl eq_refl)).
  pose proof (round_half_away_nearest (snd cc * 100 * 100) t ltac:(lia) Ht) as Hr.
  cbn [map fold_right List.length distribution_row CategoryDistribution.percentage coalesce].
  rewrite Nat2Z.inj_succ.
  set (p := CategoryDistribution.round_half_away (snd cc * 100 * 100) t) in *.
  set (P := fold_right Z.add 0 (map _ (map (distribution_row t) l))) in *.
  set (C := fold_right Z.add 0 (map snd l)) in *.
  lia.
Qed.

Lemma category_counts_total (db : database) :
  fold_right Z.add 0 (map snd (CategoryDistribution.category_counts db)) = available db.
Proof.
  unfold CategoryDistribution.category_counts, available, count.
  now rewrite sum_group_count, length_map.
Qed.

(** C4, as the code has it. With at least one available item, the percentages
    of the rows computed by the query of get_category_distribution are all
    non-null and their sum differs from 100.00 by at most 0.005 for each
    row: twice the difference, counted in hundredths, is at most the number
    of rows. *)
Theorem category_percentages_sum (db : database) :
  0 < available db ->
  exists rows,
    CategoryDistribution.query db = Ok rows /\
    (forall r, In r rows -> CategoryDistribution.percentage r <> None) /\
    2 * Z.abs (total_percentage rows - 10000) <= count rows.
Proof.
  intros Hpos. assert (Hne := proj1 (available_pos_iff db) Hpos).
  eexists. split; [now apply category_query_rows|].
  set (le := fun a b => CategoryDistribution.item_count b <=? CategoryDistribution.item_count a).
  set (rows0 := map (distribution_row (available db)) (CategoryDistribution.category_counts db)).
  assert (Hperm : Permutation (order_by le rows0) rows0) by apply order_by_perm.
  split.
  - intros r Hr. apply (Permutation_in _ Hperm) in Hr.
    apply in_map_iff in Hr. destruct Hr as (cc & <- & _). discriminate.
  - rewrite (total_percentage_perm _ _ Hperm).
    unfold count. rewrite (Permutation_length Hperm). unfold rows0. rewrite length_map.
    pose proof (percentages_deviation (available db)
                  (CategoryDistribution.category_counts db) Hpos) as H.
    rewrite category_counts_total in H. unfold count in H.
    assert (Hnn : forall cc, In cc (CategoryDistribution.category_counts db) -> 0 <= snd cc).
    { intros cc Hcc. apply in_map_iff in Hcc. destruct Hcc as (k & <- & _). simpl. lia. }
    specialize (H Hnn).
    set (P := total_percentage _) in *.
    set (n := Z.of_nat _) in *.
    nia.
Qed.

Lemma category_percentages_sum_witness :
  0 < available books_and_toys /\
  exists rows,
    CategoryDistribution.query books_and_toys = Ok rows /\
    (forall r, In r rows -> CategoryDistribution.percentage r <> None) /\
    2 * Z.abs (total_percentage rows - 10000) <= count rows.
Proof.
  split; [reflexivity|].
  apply (category_percentages_sum books_and_toys). reflexivity.
Defined.

(** C4 as stated fails: with one available item in each of seven categories
    every row of the query carries 14.29 and the sum is 100.03; the call
    itself returns no rows. *)
Lemma seven_categories_sum :
  0 < available seven_categories /\
  (exists rows, CategoryDistribution.query seven_categories = Ok rows /\
                map CategoryDistribution.percentage rows = repeat (Some 1429) 7 /\
                total_percentage rows = 10003 /\
                ~ Z.abs (total_percentage rows - 10000) <= 1) /\
  forall s rows,
    CategoryDistribution.get_category_distribution s seven_categories <> Ok rows.
Proof.
  split; [reflexivity|]. split.
  - eexists. split; [vm_compute; reflexivity|].
    split; [reflexivity|]. split; [reflexivity|]. vm_compute. intros H. now apply H.
  - intros s rows. discriminate.
Qed.

(** * get_category_distribution *)

(** C3 fails on the code. For every database get_category_distribution raises
    ambiguous_column and returns no rows: SUM(item_count) in total_items
    names both the column of category_counts and the result column
    item_count.  With two available books and one available toy the call
    ends in that error; the query itself computes ("Books",2,66.67) and
    ("Toys",1,33.33). *)
Theorem get_category_distribution_raises :
  (forall s db, CategoryDistribution.get_category_distribution s db = Error ambiguous_column) /\
  CategoryDistribution.get_category_distribution (session_on 1 100) books_and_toys
  = Error ambiguous_column /\
  CategoryDistribution.query books_and_toys =
  Ok [{| CategoryDistribution.category := "Books";
         CategoryDistribution.item_count := 2;
         CategoryDistribution.percentage := Some 6667 |};
      {| CategoryDistribution.category := "Toys";
         CategoryDistribution.item_count := 1;
         CategoryDistribution.percentage := Some 3333 |}].
Proof.
  split; [|split].
  - intros s db. reflexivity.
  - reflexivity.
  - vm_compute. reflexivity.
Qed.

(** C7 fails on the code for the same reason as C3. With no available item
    the call still raises ambiguous_column instead of returning a result;
    the query itself has no rows then and divides nothing. *)
Theorem get_category_distribution_no_available (s : session) (db : database) :
  available db = 0 ->
  CategoryDistribution.get_category_distribution s db = Error ambiguous_column /\
  CategoryDistribution.query db = Ok [].
Proof.
  intros H. split; [reflexivity|].
  apply category_query_no_available.
  destruct (filter items_is_available (items db)) eqn:E; [reflexivity|].
  unfold available, count in H. rewrite E in H. simpl in H. lia.
Qed.

Lemma get_category_distribution_no_available_witness :
  available two_users = 0 /\
  CategoryDistribution.get_category_distribution (session_on 1 100) two_users
  = Error ambiguous_column /\
  CategoryDistribution.query two_users = Ok [].
Proof.
  split; [reflexivity|].
  apply (get_category_distribution_no_available (session_on 1 100) two_users).
  reflexivity.
Defined.

(** * The platform snapshot *)

Lemma count_nonneg {A} (l : list A) : 0 <= count l.
Proof. unfold count. lia. Qed.

Lemma count_filter_le {A} (f : A -> bool) (l : list A) : count (filter f l) <= count l.
Proof.
  unfold count. apply inj_le. induction l as [|a l IH]; simpl; [lia|].
  destruct (f a); simpl; lia.
Qed.

Lemma In_non_null {A} (xs : list (option A)) (x : A) :
  In x (non_null xs) <-> In (Some x) xs.
Proof.
  induction xs as [|[y|] xs IH]; simpl.
  - tauto.
  - rewrite IH. split; intros [H|H]; auto; left; congruence.
  - rewrite IH. split; [auto|]. intros [H|H]; [discriminate|assumption].
Qed.

Lemma count_distinct_le (xs : list (option uuid)) (ids : list uuid) :
  (forall u, In (Some u) xs -> In u ids) ->
  count_distinct xs <= count ids.
Proof.
  intros H. unfold count_distinct, count. apply inj_le.
  apply NoDup_incl_length.
  - apply NoDup_nodup.
  - intros u Hu. apply nodup_In in Hu. apply H. now apply In_non_null.
Qed.

Lemma platform_analytics_returns (s : session) (db : database) (n : Z) :
  PlatformAnalytics.get_platform_analytics s db n = Ok (PlatformAnalytics.query s db).
Proof. reflexivity. Qed.

(** C5. When every item_views.user_id references a users row, the snapshot is
    one row, each of its ten counters is at least 0, and active_users_today
    is at most total_users. *)
Theorem platform_analytics_counters (s : session) (db : database) (n : Z) :
  views_reference_users db ->
  exists r,
    PlatformAnalytics.get_platform_analytics s db n = Ok [r] /\
    0 <= PlatformAnalytics.total_users r /\
    0 <= PlatformAnalytics.total_items r /\
    0 <= PlatformAnalytics.total_views r /\
    0 <= PlatformAnalytics.total_favorites r /\
    0 <= PlatformAnalytics.total_messages r /\
    0 <= PlatformAnalytics.total_reports r /\
    0 <= PlatformAnalytics.active_users_today r /\
    0 <= PlatformAnalytics.new_users_today r /\
    0 <= PlatformAnalytics.new_items_today r /\
    0 <= PlatformAnalytics.pending_reports r /\
    PlatformAnalytics.active_users_today r <= PlatformAnalytics.total_users r.
Proof.
  intros FK. eexists. split; [reflexivity|]. cbn [PlatformAnalytics.total_users
    PlatformAnalytics.total_items PlatformAnalytics.total_views
    PlatformAnalytics.total_favorites PlatformAnalytics.total_messages
    PlatformAnalytics.total_reports PlatformAnalytics.active_users_today
    PlatformAnalytics.new_users_today PlatformAnalytics.new_items_today
    PlatformAnalytics.pending_reports].
  repeat (split; [first [apply count_nonneg | unfold count_distinct; apply count_nonneg]|]).
  replace (count (users db)) with (count (map users_id (users db)))
    by (unfold count; now rewrite length_map).
  apply count_distinct_le. intros u Hu.
  apply in_map_iff in Hu. destruct Hu as (v & Hv & Hin).
  apply filter_In in Hin. destruct Hin as [Hin _].
  destruct (FK v u Hin Hv) as (r & Hr & <-).
  now apply in_map.
Qed.

Lemma one_view_references_users : views_reference_users one_view.
Proof.
  intros v u Hin Hu. simpl in Hin.
  destruct Hin as [<-|[<-|[<-|[]]]]; simpl in Hu; try discriminate;
    injection Hu as <-; (exists (user_on 7 "mallory@example.com" 20));
    (split; [simpl; auto | reflexivity]).
Defined.

Lemma platform_analytics_counters_witness :
  views_reference_users one_view /\
  exists r,
    PlatformAnalytics.get_platform_analytics (session_on 1 100) one_view 30 = Ok [r] /\
    0 <= PlatformAnalytics.total_users r /\
    0 <= PlatformAnalytics.total_items r /\
    0 <= PlatformAnalytics.total_views r /\
    0 <= PlatformAnalytics.total_favorites r /\
    0 <= PlatformAnalytics.total_messages r /\
    0 <= PlatformAnalytics.total_reports r /\
    0 <= PlatformAnalytics.active_users_today r /\
    0 <= PlatformAnalytics.new_users_today r /\
    0 <= PlatformAnalytics.new_items_today r /\
    0 <= PlatformAnalytics.pending_reports r /\
    PlatformAnalytics.active_users_today r <= PlatformAnalytics.total_users r.
Proof.
  split; [exact one_view_references_users|].
  apply (platform_analytics_counters (session_on 1 100) one_view 30).
  exact one_view_references_users.
Defined.

Lemma platform_query_same_day (s1 s2 : session) (db : database) :
  current_date s1 = current_date s2 ->
  PlatformAnalytics.query s1 db = PlatformAnalytics.query s2 db.
Proof.
  intros H. unfold PlatformAnalytics.query, PlatformAnalytics.since_today.
  now rewrite H.
Qed.

(** The snapshot reads and never writes. *)
Lemma platform_analytics_read_only (s : session) (db : database) (n : Z) :
  fst (exec s (rpc_get_platform_analytics n) db) = db.
Proof. reflexivity. Qed.

(** The seven counters without "today" in their name do not depend on the
    clock. *)
Lemma platform_totals_any_day (s1 s2 : session) (db : database) :
  map (fun r => (PlatformAnalytics.total_users r, PlatformAnalytics.total_items r,
                 PlatformAnalytics.total_views r, PlatformAnalytics.total_favorites r,
                 PlatformAnalytics.total_messages r, PlatformAnalytics.total_reports r,
                 PlatformAnalytics.pending_reports r))
      (PlatformAnalytics.query s1 db) =
  map (fun r => (PlatformAnalytics.total_users r, PlatformAnalytics.total_items r,
                 PlatformAnalytics.total_views r, PlatformAnalytics.total_favorites r,
                 PlatformAnalytics.total_messages r, PlatformAnalytics.total_reports r,
                 PlatformAnalytics.pending_reports r))
      (PlatformAnalytics.query s2 db).
Proof. reflexivity. Qed.

(** C8, as the code has it. Two runs of the snapshot with no write in between
    and on the same calendar day (the same CURRENT_DATE) leave the database
    as it was and return identical counters. *)
Theorem platform_analytics_rerun (s1 s2 : session) (db : database) (n1 n2 : Z) :
  current_date s1 = current_date s2 ->
  let run1 := exec s1 (rpc_get_platform_analytics n1) db in
  let run2 := exec s2 (rpc_get_platform_analytics n2) (fst run1) in
  fst run1 = db /\ fst run2 = db /\ snd run2 = snd run1.
Proof.
  intros H. cbn zeta. rewrite !platform_analytics_read_only.
  split; [reflexivity|]. split; [reflexivity|].
  cbn [exec snd]. rewrite !platform_analytics_returns.
  now rewrite (platform_query_same_day s1 s2 db H).
Qed.

Lemma platform_analytics_rerun_witness :
  current_date (session_on 1 20) = current_date (session_on 7 20) /\
  let run1 := exec (session_on 1 20) (rpc_get_platform_analytics 30) two_users in
  let run2 := exec (session_on 7 20) (rpc_get_platform_analytics 7) (fst run1) in
  fst run1 = two_users /\ fst run2 = two_users /\ snd run2 = snd run1.
Proof.
  split; [reflexivity|].
  apply (platform_analytics_rerun (session_on 1 20) (session_on 7 20) two_users 30 7).
  reflexivity.
Defined.

(** C8 as stated fails: with one signup on day 20 and no write in between, a
    run on day 20 reports new_users_today = 1 and a run on day 21 reports 0. *)
Lemma snapshot_differs_next_day :
  let run1 := exec (session_on 1 20) (rpc_get_platform_analytics 30) two_users in
  let run2 := exec (session_on 1 21) (rpc_get_platform_analytics 30) (fst run1) in
  fst run1 = two_users /\
  (exists r1 r2, snd run1 = Ok (resp_platform_analytics [r1]) /\
                 snd run2 = Ok (resp_platform_analytics [r2]) /\
                 PlatformAnalytics.new_users_today r1 = 1 /\
                 PlatformAnalytics.new_users_today r2 = 0) /\
  snd run2 <> snd run1.
Proof.
  cbn zeta. split; [reflexivity|]. split.
  - do 2 eexists. repeat split; vm_compute; reflexivity.
  - vm_compute. discriminate.
Qed.

(** * Who may call *)

Lemma insert_as_owner (s : session) (db : database) (admin_id : option uuid)
    (act : string) (ty : option string) (id : option uuid) (d ip ua : option string) :
  references_users db admin_id = true ->
  insert_admin_logs role_owner s db admin_id (Some act) ty id d ip ua =
  Ok (with_admin_logs db
        (admin_logs db ++
         [{| log_id := gen_random_uuid s; log_admin_id := admin_id;
             log_action := act; log_target_type := ty; log_target_id := id;
             log_details := d; log_ip_address := ip; log_user_agent := ua;
             log_created_at := now s |}])).
Proof. intros H. unfold insert_admin_logs. simpl. now rewrite H. Qed.

(** C6 fails on the code. A caller who is no administrator, with a users row
    of their own, obtains the platform snapshot and appends a log row through
    log_admin_action, although the same insert sent directly is refused by
    the "Only admins can create logs" policy. *)
Theorem non_admin_calls_succeed (s : session) (db : database) (n : Z)
    (act : string) (ty d : option string) :
  is_admin db (auth_uid s) = false ->
  references_users db (auth_uid s) = true ->
  (exists r, exec s (rpc_get_platform_analytics n) db =
             (db, Ok (resp_platform_analytics [r]))) /\
  (exists row, exec s (rpc_log_admin_action (Some act) ty None d) db =
               (with_admin_logs db (admin_logs db ++ [row]), Ok resp_void) /\
               log_admin_id row = auth_uid s /\ log_action row = act) /\
  direct_insert_admin_logs s db (Some act) ty None d = Error insufficient_privilege.
Proof.
  intros Hadm Hfk. split; [|split].
  - eexists. reflexivity.
  - eexists. cbn [exec call_log_admin_action]. unfold log_admin_action.
    rewrite (insert_as_owner _ _ _ _ _ _ _ _ _ Hfk). split; [reflexivity|]. split; reflexivity.
  - unfold direct_insert_admin_logs, insert_admin_logs. simpl. now rewrite Hadm.
Qed.

Lemma non_admin_calls_succeed_witness :
  is_admin two_users (auth_uid (session_on 7 100)) = false /\
  references_users two_users (auth_uid (session_on 7 100)) = true /\
  (exists r, exec (session_on 7 100) (rpc_get_platform_analytics 30) two_users =
             (two_users, Ok (resp_platform_analytics [r]))) /\
  (exists row, exec (session_on 7 100)
                 (rpc_log_admin_action (Some "ban_user"%string) (Some "user"%string) None None)
                 two_users =
               (with_admin_logs two_users (admin_logs two_users ++ [row]), Ok resp_void) /\
               log_admin_id row = auth_uid (session_on 7 100) /\
               log_action row = "ban_user"%string) /\
  direct_insert_admin_logs (session_on 7 100) two_users
    (Some "ban_user"%string) (Some "user"%string) None None = Error insufficient_privilege.
Proof.
  split; [reflexivity|]. split; [reflexivity|].
  apply (non_admin_calls_succeed (session_on 7 100) two_users 30 "ban_user"
           (Some "user"%string) None); reflexivity.
Defined.

(** The administrator of [two_users] passes the policy predicate, the member
    does not. *)
Lemma is_admin_two_users :
  is_admin two_users (Some 1%N) = true /\ is_admin two_users (Some 7%N) = false.
Proof. split; reflexivity. Qed.

(** * log_admin_action and the target id *)




(** A well-formed id is stored as given. *)
Lemma well_formed_target_id_stored :
  exists u row,
    uuid_in "123e4567-e89b-12d3-a456-426614174000" = Some u /\
    exec (session_on 1 100)
         (rpc_log_admin_action (Some "delete_item"%string) (Some "item"%string)
                               (Some "123e4567-e89b-12d3-a456-426614174000"%string) None)
         two_users
    = (with_admin_logs two_users [row], Ok resp_void) /\
    log_target_id row = Some u.
Proof. do 2 eexists. repeat split. Qed.

(** * The administrator predicate *)

Lemma like_chars_percent (p s : list ascii) :
  like_chars ("%"%char :: p) s =
  like_chars p s || match s with
                    | [] => false
                    | _ :: s' => like_chars ("%"%char :: p) s'
                    end.
Proof. destruct s; reflexivity. Qed.

Lemma like_chars_ordinary (c : ascii) (p s : list ascii) :
  c <> "%"%char -> c <> "_"%char ->
  like_chars (c :: p) s =
  match s with
  | [] => false
  | d :: s' => Ascii.eqb c d && like_chars p s'
  end.
Proof.
  intros H1 H2.
  destruct c as [[] [] [] [] [] [] [] []]; try reflexivity; congruence.
Qed.

(** A pattern without wildcards matches itself only. *)
Lemma like_chars_literal (p s : list ascii) :
  Forall (fun c => c <> "%"%char /\ c <> "_"%char) p ->
  like_chars p s = true <-> s = p.
Proof.
  intros H. revert s. induction H as [|c p [H1 H2] Hp IH]; intros s.
  - destruct s; simpl; split; congruence.
  - rewrite like_chars_ordinary by assumption. destruct s as [|d s].
    + split; discriminate.
    + rewrite andb_true_iff, Ascii.eqb_eq, IH. split.
      * intros [-> ->]. reflexivity.
      * intros E. injection E as -> ->. split; reflexivity.
Qed.

(** [%] followed by a pattern without wildcards matches the strings that end
    with it. *)
Lemma like_chars_suffix (p s : list ascii) :
  Forall (fun c => c <> "%"%char /\ c <> "_"%char) p ->
  like_chars ("%"%char :: p) s = true <-> exists front, s = front ++ p.
Proof.
  intros H. induction s as [|d s IH].
  - rewrite like_chars_percent, orb_false_r, (like_chars_literal p [] H). split.
    + intros E. exists []. exact E.
    + intros (front & E). symmetry in E. apply app_eq_nil in E. symmetry. apply E.
  - rewrite like_chars_percent, orb_true_iff, (like_chars_literal p (d :: s) H), IH. split.
    + intros [E|(front & E)].
      * exists []. exact E.
      * exists (d :: front). simpl. now rewrite E.
    + intros (front & E). destruct front as [|x front].
      * left. exact E.
      * right. injection E as _ E. now exists front.
Qed.

Lemma list_ascii_of_string_app (a b : string) :
  list_ascii_of_string (a ++ b) = list_ascii_of_string a ++ list_ascii_of_string b.
Proof. induction a as [|c a IH]; simpl; [reflexivity|]. now rewrite IH. Qed.

Lemma like_admin_subdomain (email : string) :
  like email "%@admin.opencycle.com" = true <->
  exists front : string, email = (front ++ "@admin.opencycle.com")%string.
Proof.
  unfold like.
  change (list_ascii_of_string "%@admin.opencycle.com")
    with ("%"%char :: list_ascii_of_string "@admin.opencycle.com").
  rewrite like_chars_suffix.
  - split.
    + intros (front & E). exists (string_of_list_ascii front).
      rewrite <- (string_of_list_ascii_of_string email), E.
      rewrite <- (list_ascii_of_string_of_list_ascii front) at 1.
      now rewrite <- list_ascii_of_string_app, string_of_list_ascii_of_string.
    + intros (front & ->). exists (list_ascii_of_string front).
      apply list_ascii_of_string_app.
  - simpl. repeat constructor; discriminate.
Qed.

(** X1. The predicate of the four policies holds for a caller exactly when
    the caller is signed in and some users row carries the caller's id and
    an email that is "admin@opencycle.com" or ends with
    "@admin.opencycle.com" (compared case-sensitively). *)
Theorem is_admin_iff (db : database) (uid : option N) :
  is_admin db uid = true <->
  exists u r, uid = Some u /\ In r (users db) /\ users_id r = u /\
              (users_email r = "admin@opencycle.com"%string \/
               exists front : string,
                 users_email r = (front ++ "@admin.opencycle.com")%string).
Proof.
  unfold is_admin. destruct uid as [u|].
  - rewrite existsb_exists. split.
    + intros (r & Hr & H). apply andb_true_iff in H. destruct H as [Hid He].
      apply N.eqb_eq in Hid. apply orb_true_iff in He.
      exists u, r. repeat split; try assumption.
      destruct He as [He|He].
      * left. now apply String.eqb_eq.
      * right. now apply like_admin_subdomain.
    + intros (u' & r & E & Hr & Hid & He). injection E as <-.
      exists r. split; [assumption|]. apply andb_true_iff. split.
      * now apply N.eqb_eq.
      * apply orb_true_iff. destruct He as [He|He].
        -- left. now apply String.eqb_eq.
        -- right. now apply like_admin_subdomain.
  - split; [discriminate|]. intros (u & r & E & _). discriminate.
Qed.

(** * Row-level security of admin_settings and admin_logs *)

Lemma policy_matrix (s : session) (db : database) :
  (forall c, using_allows tbl_admin_settings c s db = is_admin db (auth_uid s)) /\
  (forall c, check_allows tbl_admin_settings c s db = is_admin db (auth_uid s)) /\
  (forall c, using_allows tbl_admin_logs c s db =
             match c with cmd_select => is_admin db (auth_uid s) | _ => false end) /\
  (forall c, check_allows tbl_admin_logs c s db =
             match c with
             | cmd_select | cmd_insert => is_admin db (auth_uid s)
             | _ => false
             end).
Proof.
  unfold using_allows, check_allows, policies, applies, holds. simpl.
  repeat split; intros c; destruct c; simpl;
    destruct (is_admin db (auth_uid s)); reflexivity.
Qed.

(** X2. No statement sent by a client changes admin_logs rows that exist: for
    every caller, administrator or not, row-level security lets DELETE and
    UPDATE on admin_logs reach no row, since no policy covers them, so the
    table is left as it was; SELECT shows the rows to administrators and
    nothing to anyone else. *)
Theorem admin_logs_client_statements (s : session) (db : database)
    (where_ : admin_logs_row -> bool) (set : admin_logs_row -> admin_logs_row) :
  rls_delete tbl_admin_logs s db where_ (admin_logs db) = admin_logs db /\
  rls_update tbl_admin_logs s db where_ set (admin_logs db) = Ok (admin_logs db) /\
  rls_select tbl_admin_logs s db (admin_logs db) =
  if is_admin db (auth_uid s) then admin_logs db else [].
Proof.
  destruct (policy_matrix s db) as (_ & _ & Hu & _).
  unfold rls_delete, rls_update, rls_select. rewrite !Hu. repeat split.
Qed.

(** X3. admin_settings is closed to callers who are no administrators: under
    its policies their SELECT returns no row and their UPDATE and DELETE
    reach no row and change nothing.  An administrator's SELECT returns
    every row and the DELETE removes the rows its WHERE selects. *)
Theorem admin_settings_client_statements (s : session) (db : database)
    (where_ : admin_settings_row -> bool) (set : admin_settings_row -> admin_settings_row)
    (t : list admin_settings_row) :
  if is_admin db (auth_uid s)
  then rls_select tbl_admin_settings s db t = t /\
       rls_delete tbl_admin_settings s db where_ t = filter (fun r => negb (where_ r)) t
  else rls_select tbl_admin_settings s db t = [] /\
       rls_delete tbl_admin_settings s db where_ t = t /\
       rls_update tbl_admin_settings s db where_ set t = Ok t.
Proof.
  destruct (policy_matrix s db) as (Hu & Hc & _ & _).
  unfold rls_delete, rls_update, rls_select. rewrite !Hu.
  destruct (is_admin db (auth_uid s)); repeat split.
Qed.

(** The policy on inserts is the check the direct insert applies. *)
Lemma direct_insert_follows_policy (s : session) (db : database)
    (action ty : option string) (id : option N) (d : option string) :
  check_allows tbl_admin_logs cmd_insert s db = false ->
  direct_insert_admin_logs s db action ty id d = Error insufficient_privilege.
Proof.
  destruct (policy_matrix s db) as (_ & _ & _ & Hc). rewrite Hc. intros H.
  unfold direct_insert_admin_logs, insert_admin_logs. simpl. now rewrite H.
Qed.

(** * The default settings *)

Lemma key_taken_app (k : string) (t t' : list admin_settings_row) :
  key_taken k (t ++ t') = key_taken k t || key_taken k t'.
Proof. unfold key_taken. apply existsb_app. Qed.

Lemma key_taken_In (k : string) (t : list admin_settings_row) :
  key_taken k t = true <-> In k (map setting_key t).
Proof.
  unfold key_taken. rewrite existsb_exists, in_map_iff. split.
  - intros (r & Hr & E). apply String.eqb_eq in E. now exists r.
  - intros (r & E & Hr). exists r. split; [assumption|]. now apply String.eqb_eq.
Qed.

Lemma insert_on_conflict_extends (now : Z) (fresh : nat -> N)
    (vals : list (string * jsonb * string)) :
  forall (n : nat) (t : list admin_settings_row),
  exists added,
    insert_on_conflict_do_nothing now fresh n vals t = t ++ added /\
    (forall r, In r added ->
       key_taken (setting_key r) t = false /\
       In (setting_key r) (map (fun v => fst (fst v)) vals) /\
       setting_created_at r = now /\ setting_updated_at r = now) /\
    (NoDup (map setting_key t) -> NoDup (map setting_key (t ++ added))) /\
    (forall k, In k (map (fun v => fst (fst v)) vals) -> key_taken k (t ++ added) = true).
Proof.
  induction vals as [|[[k v] d] vals IH]; intros n t.
  - exists []. rewrite app_nil_r. simpl. split; [reflexivity|].
    split; [intros r []|]. split; [tauto|]. intros k [].
  - simpl. destruct (key_taken k t) eqn:Ek.
    + destruct (IH (S n) t) as (added & E & Hadded & Hnd & Hall).
      exists added. split; [exact E|]. split; [|split].
      * intros r Hr. destruct (Hadded r Hr) as (H1 & H2 & H3 & H4).
        repeat split; auto; try (now right).
      * exact Hnd.
      * intros k' [<-|Hk']; [|now apply Hall].
        rewrite key_taken_app, Ek. reflexivity.
    + set (row := {| setting_id := fresh n; setting_key := k; setting_value := v;
                     setting_description := Some d;
                     setting_created_at := now; setting_updated_at := now |}).
      destruct (IH (S n) (t ++ [row])) as (added & E & Hadded & Hnd & Hall).
      exists (row :: added). rewrite E, <- app_assoc. split; [reflexivity|].
      split; [|split].
      * intros r [<-|Hr].
        -- simpl. repeat split; auto.
        -- destruct (Hadded r Hr) as (H1 & H2 & H3 & H4).
           rewrite key_taken_app in H1. apply orb_false_iff in H1.
           repeat split; auto; try apply H1; try (now right).
      * intros Ht. change (t ++ row :: added) with (t ++ [row] ++ added).
        rewrite app_assoc. apply Hnd. rewrite map_app. simpl.
        apply NoDup_app.
        -- exact Ht.
        -- repeat constructor. intros [].
        -- intros x Hx [<-|[]]. apply key_taken_In in Hx. congruence.
      * intros k' Hk'. change (t ++ row :: added) with (t ++ [row] ++ added).
        rewrite app_assoc. destruct Hk' as [<-|Hk']; [|now apply Hall].
        rewrite key_taken_app, key_taken_app. simpl. rewrite String.eqb_refl.
        now rewrite orb_true_r.
Qed.

Lemma insert_on_conflict_all_taken (now : Z) (fresh : nat -> N)
    (vals : list (string * jsonb * string)) :
  forall (n : nat) (t : list admin_settings_row),
  (forall k, In k (map (fun v => fst (fst v)) vals) -> key_taken k t = true) ->
  insert_on_conflict_do_nothing now fresh n vals t = t.
Proof.
  induction vals as [|[[k v] d] vals IH]; intros n t H; simpl; [reflexivity|].
  rewrite (H k (or_introl eq_refl)). apply IH. intros k' Hk'. apply H. now right.
Qed.

(** X4. Seeding the default settings never changes or removes a row that is
    there: the table afterwards is the table before followed by the rows
    added.  A row is added only under a default key that was missing and is
    stamped with the time of the insert; keys that were unique stay unique;
    and afterwards each of the eleven default keys is present. *)
Theorem seed_default_settings_keeps (now : Z) (fresh : nat -> N)
    (t : list admin_settings_row) :
  exists added,
    seed_default_settings now fresh t = t ++ added /\
    (forall r, In r added ->
       key_taken (setting_key r) t = false /\
       In (setting_key r) (map (fun v => fst (fst v)) default_settings) /\
       setting_created_at r = now /\ setting_updated_at r = now) /\
    (NoDup (map setting_key t) ->
     NoDup (map setting_key (seed_default_settings now fresh t))) /\
    (forall k, In k (map (fun v => fst (fst v)) default_settings) ->
               key_taken k (seed_default_settings now fresh t) = true).
Proof.
  unfold seed_default_settings.
  destruct (insert_on_conflict_extends now fresh default_settings 0%nat t)
    as (added & E & H1 & H2 & H3).
  exists added. rewrite E. repeat split; auto; apply H1; assumption.
Qed.

(** X5. Seeding is idempotent: a second run of the INSERT, at any later time
    and with any fresh ids, inserts nothing and leaves the table as the
    first run left it; in particular a value an administrator changed in
    between is not reset. *)
Theorem seed_default_settings_twice (now1 now2 : Z) (fresh1 fresh2 : nat -> N)
    (t : list admin_settings_row) (edit : admin_settings_row -> admin_settings_row) :
  seed_default_settings now2 fresh2 (seed_default_settings now1 fresh1 t)
  = seed_default_settings now1 fresh1 t /\
  ((forall r, setting_key (edit r) = setting_key r) ->
   seed_default_settings now2 fresh2 (map edit (seed_default_settings now1 fresh1 t))
   = map edit (seed_default_settings now1 fresh1 t)).
Proof.
  unfold seed_default_settings.
  destruct (insert_on_conflict_extends now1 fresh1 default_settings 0%nat t)
    as (added & E & _ & _ & H3).
  rewrite E. split.
  - now apply insert_on_conflict_all_taken.
  - intros Hedit. apply insert_on_conflict_all_taken. intros k Hk.
    apply key_taken_In. rewrite map_map.
    rewrite (map_ext _ setting_key Hedit). apply key_taken_In. now apply H3.
Qed.

(** * log_admin_action *)

(** X6. The outcome of a log_admin_action call that carries no details, in
    the order the checks apply: a malformed target id gives
    invalid_text_representation; else a null action gives
    not_null_violation; else a caller id that is set and has no users row
    gives foreign_key_violation; else the call succeeds.  Whether the caller
    is an administrator plays no part. *)
Theorem log_admin_action_outcome (s : session) (db : database)
    (a ty id : option string) :
  snd (exec s (rpc_log_admin_action a ty id None) db) =
  if malformed_id id then Error invalid_text_representation
  else match a with
       | None => Error not_null_violation
       | Some _ =>
           if references_users db (auth_uid s) then Ok resp_void
           else Error foreign_key_violation
       end.
Proof.
  unfold malformed_id, exec, call_log_admin_action.
  destruct id as [txt|]; [destruct (uuid_in txt)|]; try reflexivity;
    unfold log_admin_action, insert_admin_logs; simpl;
    destruct a; try reflexivity;
    destruct (references_users db (auth_uid s)); reflexivity.
Qed.

Lemma insert_admin_logs_frame (cu : db_role) (s : session) (db db' : database)
    (admin_id : option N) (action ty : option string) (id : option N)
    (d ip ua : option string) :
  insert_admin_logs cu s db admin_id action ty id d ip ua = Ok db' ->
  references_users db admin_id = true /\
  exists act, action = Some act /\
    db' = with_admin_logs db
            (admin_logs db ++
             [{| log_id := gen_random_uuid s; log_admin_id := admin_id;
                 log_action := act; log_target_type := ty; log_target_id := id;
                 log_details := d; log_ip_address := ip; log_user_agent := ua;
                 log_created_at := now s |}]).
Proof.
  unfold insert_admin_logs.
  destruct (rls_applies cu && negb (is_admin db (auth_uid s))); [discriminate|].
  destruct action as [act|]; [|discriminate].
  destruct (references_users db admin_id); [|discriminate].
  intros E. injection E as <-. split; [reflexivity|]. now exists act.
Qed.

Lemma exec_cases (s : session) (c : rpc_call) (db : database) :
  fst (exec s c db) = db \/
  exists a ty id d row,
    c = rpc_log_admin_action a ty id d /\
    snd (exec s c db) = Ok resp_void /\
    fst (exec s c db) = with_admin_logs db (admin_logs db ++ [row]) /\
    log_admin_id row = auth_uid s /\
    references_users db (auth_uid s) = true /\
    log_ip_address row = inet_client_addr s /\
    log_user_agent row = user_agent_of s /\
    log_created_at row = now s.
Proof.
  destruct c as [a ty id d| | |]; try (left; reflexivity).
  cbn [exec]. destruct (call_log_admin_action s db a ty id d) as [db'|e] eqn:E;
    [|left; reflexivity].
  right. exists a, ty, id, d.
  unfold call_log_admin_action, log_admin_action in E.
  destruct id as [txt|]; [destruct (uuid_in txt); [|discriminate]|];
    apply insert_admin_logs_frame in E; destruct E as (Hfk & act & -> & ->);
    eexists; repeat split; assumption.
Qed.

(** Of a repeated member of the request headers the last one is read. *)
Lemma json_field_last (key v : string) (obj : list (string * string)) :
  json_field key (obj ++ [(key, v)]) = Some v.
Proof.
  induction obj as [|[k w] t IH]; simpl.
  - now rewrite String.eqb_refl.
  - now rewrite IH.
Qed.

Lemma json_field_absent (key : string) (obj : list (string * string)) :
  json_field key obj = None <-> ~ In key (map fst obj).
Proof.
  induction obj as [|[k w] t IH]; simpl.
  - tauto.
  - destruct (json_field key t) as [v|].
    + split; [discriminate|]. intros H. exfalso.
      assert (Hn : ~ In key (map fst t)) by tauto.
      apply IH in Hn. discriminate.
    + destruct (String.eqb_spec k key) as [E|E].
      * split; [discriminate|]. intros H. exfalso. apply H. now left.
      * split; [|reflexivity]. intros _ [H|H]; [contradiction|]. now apply IH.
Qed.

(** X7. Whatever the call and the caller, the four functions only ever append
    to admin_logs: users, items, item_views, favorites, messages and reports
    are left as they were, the rows of admin_logs stay in place, and at most
    one row is added after them.  A call that fails changes nothing, and a
    row that is added records the caller's id, address and user agent and
    the time of the call. *)
Theorem exec_appends_only (s : session) (c : rpc_call) (db : database) :
  let db' := fst (exec s c db) in
  users db' = users db /\ items db' = items db /\ item_views db' = item_views db /\
  favorites db' = favorites db /\ messages db' = messages db /\
  reports db' = reports db /\
  extends_by_at_most_one (admin_logs db) (admin_logs db') /\
  (forall e, snd (exec s c db) = Error e -> db' = db) /\
  (forall row, admin_logs db' = admin_logs db ++ [row] ->
     log_admin_id row = auth_uid s /\ log_ip_address row = inet_client_addr s /\
     log_user_agent row = user_agent_of s /\ log_created_at row = now s).
Proof.
  cbn zeta.
  destruct (exec_cases s c db)
    as [E|(a & ty & id & d & row & -> & Hok & E & H1 & H2 & H3 & H4 & H5)].
  - rewrite E. do 6 (split; [reflexivity|]). split; [now left|].
    split; [reflexivity|]. intros row Hrow. exfalso.
    apply (f_equal (@List.length _)) in Hrow. rewrite length_app in Hrow.
    simpl in Hrow. lia.
  - rewrite E. unfold with_admin_logs.
    cbn [users items item_views favorites messages reports admin_logs].
    do 6 (split; [reflexivity|]).
    split; [right; now exists row|].
    split; [intros e He; rewrite Hok in He; discriminate|].
    intros row' Hrow. apply app_inv_head in Hrow. injection Hrow as <-. auto.
Qed.

Lemma references_users_In (db : database) (a : N) :
  references_users db (Some a) = true -> exists u, In u (users db) /\ users_id u = a.
Proof.
  simpl. rewrite existsb_exists. intros (u & Hu & E). apply N.eqb_eq in E. now exists u.
Qed.

(** X8. The foreign key of admin_logs.admin_id is an invariant of the four
    functions: if every non-null admin_id names a users row before a call,
    the same holds after it. *)
Theorem exec_keeps_admin_id_valid (s : session) (c : rpc_call) (db : database) :
  logs_reference (users db) (admin_logs db) ->
  logs_reference (users (fst (exec s c db))) (admin_logs (fst (exec s c db))).
Proof.
  intros H.
  destruct (exec_cases s c db)
    as [E|(a & ty & id & d & row & -> & Hok & E & H1 & H2 & _)].
  - now rewrite E.
  - rewrite E. simpl. intros r x Hr Hx. apply in_app_or in Hr.
    destruct Hr as [Hr|[<-|[]]].
    + exact (H r x Hr Hx).
    + rewrite H1 in Hx. rewrite Hx in H2. now apply references_users_In.
Qed.

(** X9. ON DELETE SET NULL keeps the log: after a users row is deleted no
    log row is lost, the rows of that user have admin_id null and every
    other column as before, the other rows are unchanged, and every non-null
    admin_id still names one of the remaining users. *)
Theorem on_delete_set_null_keeps_logs (uid : N) (us : list users_row)
    (logs : list admin_logs_row) :
  logs_reference us logs ->
  let logs' := on_delete_set_null uid logs in
  logs_reference (filter (fun u => negb (N.eqb (users_id u) uid)) us) logs' /\
  map (fun r => (log_id r, log_action r, log_target_type r, log_target_id r,
                 log_details r, log_ip_address r, log_user_agent r, log_created_at r)) logs'
  = map (fun r => (log_id r, log_action r, log_target_type r, log_target_id r,
                   log_details r, log_ip_address r, log_user_agent r, log_created_at r)) logs /\
  map log_admin_id logs' =
  map (fun r => if match log_admin_id r with Some a => N.eqb a uid | None => false end
                then None else log_admin_id r) logs.
Proof.
  intros H. cbn zeta. unfold on_delete_set_null. split; [|split].
  - intros r a Hr Ha. apply in_map_iff in Hr. destruct Hr as (r0 & E & Hr0).
    destruct (log_admin_id r0) as [a0|] eqn:E0.
    + destruct (N.eqb_spec a0 uid) as [->|Hne].
      * subst r. discriminate.
      * subst r. rewrite E0 in Ha. injection Ha as <-.
        destruct (H r0 a0 Hr0 E0) as (u & Hu & Hid).
        exists u. split; [|assumption]. apply filter_In. split; [assumption|].
        rewrite Hid. apply negb_true_iff. now apply N.eqb_neq.
    + subst r. congruence.
  - rewrite map_map. apply map_ext. intros r.
    destruct (log_admin_id r) as [a|]; [destruct (N.eqb a uid)|]; reflexivity.
  - rewrite map_map. apply map_ext. intros r.
    destruct (log_admin_id r) as [a|] eqn:E; [destruct (N.eqb a uid)|]; simpl; congruence.
Qed.

(** * More on the platform snapshot *)

Lemma non_null_length {A} (xs : list (option A)) :
  (List.length (non_null xs) <= List.length xs)%nat.
Proof. induction xs as [|[x|] xs IH]; simpl; lia. Qed.

Lemma count_distinct_le_count (xs : list (option N)) : count_distinct xs <= count xs.
Proof.
  unfold count_distinct, count. apply inj_le.
  etransitivity; [|apply non_null_length].
  apply NoDup_incl_length; [apply NoDup_nodup|].
  intros x Hx. now apply nodup_In in Hx.
Qed.

Lemma count_distinct_incl (xs ys : list (option N)) :
  incl xs ys -> count_distinct xs <= count_distinct ys.
Proof.
  intros H. unfold count_distinct, count. apply inj_le.
  apply NoDup_incl_length; [apply NoDup_nodup|].
  intros x Hx. apply nodup_In. apply In_non_null. apply H. apply In_non_null.
  now apply nodup_In in Hx.
Qed.

Lemma count_filter_impl {A} (p q : A -> bool) (l : list A) :
  (forall x, p x = true -> q x = true) -> count (filter p l) <= count (filter q l).
Proof.
  intros H. unfold count. apply inj_le. induction l as [|a l IH]; simpl; [lia|].
  destruct (p a) eqn:E.
  - rewrite (H a E). simpl. lia.
  - destruct (q a); simpl; lia.
Qed.

(** X10. In every snapshot, with no assumption on the data, new_users_today
    is at most total_users, new_items_today at most total_items,
    pending_reports at most total_reports and active_users_today at most
    total_views. *)
Theorem platform_analytics_bounds (s : session) (db : database) (n : Z) :
  exists r,
    PlatformAnalytics.get_platform_analytics s db n = Ok [r] /\
    PlatformAnalytics.new_users_today r <= PlatformAnalytics.total_users r /\
    PlatformAnalytics.new_items_today r <= PlatformAnalytics.total_items r /\
    PlatformAnalytics.pending_reports r <= PlatformAnalytics.total_reports r /\
    PlatformAnalytics.active_users_today r <= PlatformAnalytics.total_views r.
Proof.
  eexists. split; [reflexivity|].
  cbn [PlatformAnalytics.total_users PlatformAnalytics.total_items
       PlatformAnalytics.total_views PlatformAnalytics.total_reports
       PlatformAnalytics.active_users_today PlatformAnalytics.new_users_today
       PlatformAnalytics.new_items_today PlatformAnalytics.pending_reports].
  repeat split; try apply count_filter_le.
  etransitivity; [apply count_distinct_le_count|].
  unfold count. rewrite length_map. apply count_filter_le.
Qed.

Lemma since_today_later (s1 s2 : session) (t : Z) :
  current_date s1 <= current_date s2 ->
  PlatformAnalytics.since_today s2 t = true -> PlatformAnalytics.since_today s1 t = true.
Proof.
  unfold PlatformAnalytics.since_today, timestamp_of_date. intros H.
  rewrite !Z.leb_le. pose proof usecs_per_day_pos. nia.
Qed.

(** X11. With the data unchanged, the counters of "today" can only fall as
    the calendar advances: a snapshot taken on a later day reports
    new_users_today, new_items_today and active_users_today no larger than
    a snapshot taken on an earlier day, and the same seven other counters. *)
Theorem platform_analytics_later_day (s1 s2 : session) (db : database) (n1 n2 : Z) :
  current_date s1 <= current_date s2 ->
  exists r1 r2,
    PlatformAnalytics.get_platform_analytics s1 db n1 = Ok [r1] /\
    PlatformAnalytics.get_platform_analytics s2 db n2 = Ok [r2] /\
    PlatformAnalytics.new_users_today r2 <= PlatformAnalytics.new_users_today r1 /\
    PlatformAnalytics.new_items_today r2 <= PlatformAnalytics.new_items_today r1 /\
    PlatformAnalytics.active_users_today r2 <= PlatformAnalytics.active_users_today r1 /\
    PlatformAnalytics.total_users r2 = PlatformAnalytics.total_users r1 /\
    PlatformAnalytics.total_items r2 = PlatformAnalytics.total_items r1 /\
    PlatformAnalytics.total_views r2 = PlatformAnalytics.total_views r1 /\
    PlatformAnalytics.total_favorites r2 = PlatformAnalytics.total_favorites r1 /\
    PlatformAnalytics.total_messages r2 = PlatformAnalytics.total_messages r1 /\
    PlatformAnalytics.total_reports r2 = PlatformAnalytics.total_reports r1 /\
    PlatformAnalytics.pending_reports r2 = PlatformAnalytics.pending_reports r1.
Proof.
  intros H. do 2 eexists. split; [reflexivity|]. split; [reflexivity|].
  cbn [PlatformAnalytics.total_users PlatformAnalytics.total_items
       PlatformAnalytics.total_views PlatformAnalytics.total_reports
       PlatformAnalytics.total_favorites PlatformAnalytics.total_messages
       PlatformAnalytics.active_users_today PlatformAnalytics.new_users_today
       PlatformAnalytics.new_items_today PlatformAnalytics.pending_reports].
  split; [|split; [|split; [|repeat split]]].
  - apply count_filter_impl. intros u. now apply since_today_later.
  - apply count_filter_impl. intros i. now apply since_today_later.
  - apply count_distinct_incl. intros x Hx.
    apply in_map_iff in Hx. destruct Hx as (v & <- & Hv).
    apply in_map. apply filter_In in Hv. apply filter_In.
    split; [apply Hv|]. apply (since_today_later s1 s2); [assumption|apply Hv].
Qed.

(** X12. No call changes a counter: the snapshot taken after any call of
    the four functions, by any caller, equals the snapshot taken before it
    (by the same viewer); and the days_back argument of the snapshot has no
    effect. *)
Theorem platform_analytics_after_call (s0 s : session) (c : rpc_call) (db : database)
    (n1 n2 : Z) :
  PlatformAnalytics.get_platform_analytics s (fst (exec s0 c db)) n1 =
  PlatformAnalytics.get_platform_analytics s db n2.
Proof.
  destruct (exec_cases s0 c db) as [E|(a & ty & id & d & row & _ & _ & E & _)];
    rewrite E; reflexivity.
Qed.

(** * More on the growth series *)

(** X13. A window of W >= 0 days whose first day, today - W, lies within the
    range of the type timestamp is run and gives W + 1 rows, one for each
    day from today - W through today, in ascending order of date.  new_users
    of a row is the number of users created on its day; cumulative_users is
    new_users on the first row, the previous row's cumulative_users plus
    new_users on each later row, and so the number of users created from the
    first day of the window through the row's day.  A window whose first day
    lies before the range ends in "timestamp out of range". *)
Theorem user_growth_run_series (s : session) (db : database) (w : Z)
    (dflt : UserGrowth.row) :
  0 <= w ->
  if timestamp_in_range (UserGrowth.window_start s w)
  then exists rows,
    user_growth_query_run s db w = Ok rows /\
    List.length rows = Z.to_nat (w + 1) /\
    (forall i, (i < List.length rows)%nat ->
       UserGrowth.date (nth i rows dflt) = current_date s - w + Z.of_nat i) /\
    (forall r, In r rows -> UserGrowth.new_users r = signups_on db (UserGrowth.date r)) /\
    UserGrowth.cumulative_users (nth 0 rows dflt) = UserGrowth.new_users (nth 0 rows dflt) /\
    (forall i, (S i < List.length rows)%nat ->
       UserGrowth.cumulative_users (nth (S i) rows dflt) =
       UserGrowth.cumulative_users (nth i rows dflt) + UserGrowth.new_users (nth (S i) rows dflt)) /\
    (forall r, In r rows ->
       UserGrowth.cumulative_users r =
       signups_between db (current_date s - w) (UserGrowth.date r))
  else user_growth_query_run s db w = Error datetime_field_overflow.
Proof.
  intros Hw. unfold user_growth_query_run.
  destruct (timestamp_in_range (UserGrowth.window_start s w)); [|reflexivity].
  exists (UserGrowth.query s db w). split; [reflexivity|].
  exact (user_growth_query_series s db w dflt Hw).
Qed.

Lemma user_growth_run_series_witness :
  0 <= 1 /\
  exists rows,
    user_growth_query_run (session_on 1 100) five_signups 1 = Ok rows /\
    List.length rows = Z.to_nat (1 + 1) /\
    forall r, In r rows ->
      UserGrowth.cumulative_users r =
      signups_between five_signups (current_date (session_on 1 100) - 1) (UserGrowth.date r).
Proof.
  split; [lia|].
  destruct (user_growth_run_series (session_on 1 100) five_signups 1
              {| UserGrowth.date := 0; UserGrowth.new_users := 0;
                 UserGrowth.cumulative_users := 0 |} ltac:(lia))
    as (rows & Hrun & Hlen & _ & _ & _ & _ & Hcum).
  exists rows. split; [exact Hrun|]. split; [exact Hlen|exact Hcum].
Defined.

Lemma user_growth_query_series_witness :
  0 <= 1 /\
  List.length (UserGrowth.query (session_on 1 100) five_signups 1) = Z.to_nat (1 + 1) /\
  forall r, In r (UserGrowth.query (session_on 1 100) five_signups 1) ->
    UserGrowth.cumulative_users r =
    signups_between five_signups (current_date (session_on 1 100) - 1) (UserGrowth.date r).
Proof.
  split; [lia|].
  pose proof (user_growth_query_series (session_on 1 100) five_signups 1
                {| UserGrowth.date := 0; UserGrowth.new_users := 0;
                   UserGrowth.cumulative_users := 0 |} ltac:(lia)) as H.
  cbn zeta in H. split; [apply H|apply H].
Defined.

Lemma filter_filter_length {A} (p q : A -> bool) (l : list A) :
  (forall x, In x l -> q x = true -> p x = true) ->
  List.length (filter q (filter p l)) = List.length (filter q l).
Proof.
  intros H. induction l as [|a l IH]; simpl; [reflexivity|].
  assert (IH' := IH (fun x Hx => H x (or_intror Hx))).
  destruct (p a) eqn:Ep; simpl.
  - destruct (q a); simpl; now rewrite IH'.
  - destruct (q a) eqn:Eq; [|exact IH'].
    rewrite (H a (or_introl eq_refl) Eq) in Ep. discriminate.
Qed.

(** X14. The series depends on no user outside the window: removing every
    user created before the first day of the window or after today leaves
    each row of the query as it is. *)
Theorem user_growth_query_window_only (s : session) (db : database) (w : Z) :
  0 <= w ->
  UserGrowth.query s (with_users db (filter (in_window s w) (users db))) w
  = UserGrowth.query s db w.
Proof.
  intros Hw. rewrite !user_growth_query_rows by assumption.
  apply map_ext_in. intros d Hd. apply In_days_from in Hd. destruct Hd as (k & Hk & ->).
  assert (Hk' : Z.of_nat k <= w) by lia.
  unfold growth_row, signups_on, signups_between, count. simpl users.
  f_equal; f_equal; apply filter_filter_length; intros u _ H; unfold in_window.
  - apply Z.eqb_eq in H. rewrite H. apply andb_true_iff. split; apply Z.leb_le; lia.
  - apply andb_true_iff in H. destruct H as [H1 H2]. apply Z.leb_le in H1, H2.
    apply andb_true_iff. split; apply Z.leb_le; lia.
Qed.

Lemma user_growth_query_window_only_witness :
  0 <= 1 /\
  UserGrowth.query (session_on 1 100)
    (with_users five_signups (filter (in_window (session_on 1 100) 1) (users five_signups))) 1
  = UserGrowth.query (session_on 1 100) five_signups 1.
Proof.
  split; [lia|].
  apply (user_growth_query_window_only (session_on 1 100) five_signups 1). lia.
Defined.

Lemma last_growth_row (db : database) (lo : Z) (n : nat) (dflt : UserGrowth.row) :
  last (map (growth_row db lo) (days_from lo (S n))) dflt = growth_row db lo (lo + Z.of_nat n).
Proof.
  rewrite days_from_S, map_app. simpl. apply last_last.
Qed.

(** X15. For a window of W >= 0 days whose first day lies within the range
    of the type timestamp, and when no user carries a creation time later
    than today: the query is run, the last row of its series is today's row
    and agrees with the snapshot: its new_users is the snapshot's
    new_users_today, and its cumulative_users, the number of users created
    within the window, is at most the snapshot's total_users. *)
Theorem user_growth_last_row_and_snapshot (s : session) (db : database) (w n : Z)
    (dflt : UserGrowth.row) :
  0 <= w ->
  timestamp_in_range (UserGrowth.window_start s w) = true ->
  (forall u, In u (users db) -> date_of (users_created_at u) <= current_date s) ->
  exists r rows,
    PlatformAnalytics.get_platform_analytics s db n = Ok [r] /\
    user_growth_query_run s db w = Ok rows /\
    let today_row := last rows dflt in
    UserGrowth.date today_row = current_date s /\
    UserGrowth.new_users today_row = PlatformAnalytics.new_users_today r /\
    UserGrowth.cumulative_users today_row = signups_between db (current_date s - w) (current_date s) /\
    UserGrowth.cumulative_users today_row <= PlatformAnalytics.total_users r.
Proof.
  intros Hw Hrange Hfut. unfold user_growth_query_run. rewrite Hrange.
  eexists. eexists. split; [reflexivity|]. split; [reflexivity|]. cbn zeta.
  rewrite user_growth_query_rows by assumption. rewrite last_growth_row.
  replace (current_date s - w + Z.of_nat (Z.to_nat w)) with (current_date s) by lia.
  cbn [growth_row UserGrowth.date UserGrowth.new_users UserGrowth.cumulative_users
       PlatformAnalytics.new_users_today PlatformAnalytics.total_users].
  split; [reflexivity|]. split; [|split; [reflexivity|]].
  - unfold signups_on. f_equal. apply filter_ext_in. intros u Hu.
    unfold PlatformAnalytics.since_today.
    destruct (Z.leb_spec (timestamp_of_date (current_date s)) (users_created_at u)) as [H|H].
    + apply date_of_ge in H. apply Z.eqb_eq. specialize (Hfut u Hu). lia.
    + apply Z.eqb_neq. intros E.
      assert (H' : current_date s <= date_of (users_created_at u)) by lia.
      apply date_of_ge in H'. lia.
  - unfold signups_between. apply count_filter_le.
Qed.

Lemma user_growth_last_row_and_snapshot_witness :
  0 <= 1 /\
  timestamp_in_range (UserGrowth.window_start (session_on 1 100) 1) = true /\
  (forall u, In u (users five_signups) ->
     date_of (users_created_at u) <= current_date (session_on 1 100)) /\
  exists r rows,
    PlatformAnalytics.get_platform_analytics (session_on 1 100) five_signups 30 = Ok [r] /\
    user_growth_query_run (session_on 1 100) five_signups 1 = Ok rows /\
    UserGrowth.new_users
      (last rows {| UserGrowth.date := 0; UserGrowth.new_users := 0;
                    UserGrowth.cumulative_users := 0 |})
    = PlatformAnalytics.new_users_today r.
Proof.
  assert (H : forall u, In u (users five_signups) ->
                date_of (users_created_at u) <= current_date (session_on 1 100)).
  { intros u Hu. simpl in Hu.
    repeat (destruct Hu as [<-|Hu]; [vm_compute; discriminate|]). destruct Hu. }
  split; [lia|]. split; [reflexivity|]. split; [exact H|].
  destruct (user_growth_last_row_and_snapshot (session_on 1 100) five_signups 1 30
              {| UserGrowth.date := 0; UserGrowth.new_users := 0;
                 UserGrowth.cumulative_users := 0 |} ltac:(lia) eq_refl H)
    as (r & rows & Hr & Hrun & H1).
  exists r, rows. split; [exact Hr|]. split; [exact Hrun|]. apply H1.
Defined.

Lemma signups_on_nonneg (db : database) (d : Z) : 0 <= signups_on db d.
Proof. unfold signups_on. apply count_nonneg. Qed.

(** X16. Down the series cumulative_users never decreases and new_users is
    never negative, and no cumulative_users exceeds the number of users in
    the table. *)
Theorem user_growth_cumulative_monotone (s : session) (db : database) (w : Z)
    (dflt : UserGrowth.row) :
  0 <= w ->
  let rows := UserGrowth.query s db w in
  (forall r, In r rows ->
     0 <= UserGrowth.new_users r <= UserGrowth.cumulative_users r /\
     UserGrowth.cumulative_users r <= count (users db)) /\
  (forall i j, (i <= j < List.length rows)%nat ->
     UserGrowth.cumulative_users (nth i rows dflt) <=
     UserGrowth.cumulative_users (nth j rows dflt)).
Proof.
  intros Hw. cbn zeta. rewrite user_growth_query_rows by assumption.
  set (lo := current_date s - w). split.
  - intros r Hr. apply in_map_iff in Hr. destruct Hr as (d & <- & Hd).
    apply In_days_from in Hd. destruct Hd as (k & Hk & ->).
    cbn [growth_row UserGrowth.new_users UserGrowth.cumulative_users].
    split; [split|].
    + apply signups_on_nonneg.
    + unfold signups_on, signups_between. apply count_filter_impl. intros u H.
      apply Z.eqb_eq in H. rewrite H. apply andb_true_iff. split; apply Z.leb_le; lia.
    + unfold signups_between. apply count_filter_le.
  - intros i j Hij. unfold days_from in Hij. rewrite !length_map, length_seq in Hij.
    rewrite !nth_growth_rows by lia.
    cbn [growth_row UserGrowth.cumulative_users].
    unfold signups_between. apply count_filter_impl. intros u H.
    apply andb_true_iff in H. destruct H as [H1 H2]. apply Z.leb_le in H2.
    rewrite H1. apply Z.leb_le. lia.
Qed.

Lemma user_growth_cumulative_monotone_witness :
  0 <= 2 /\
  forall r, In r (UserGrowth.query (session_on 1 100) five_signups 2) ->
    0 <= UserGrowth.new_users r <= UserGrowth.cumulative_users r /\
    UserGrowth.cumulative_users r <= count (users five_signups).
Proof.
  split; [lia|].
  apply (user_growth_cumulative_monotone (session_on 1 100) five_signups 2
           {| UserGrowth.date := 0; UserGrowth.new_users := 0;
              UserGrowth.cumulative_users := 0 |}).
  lia.
Defined.

(** * More on the category distribution *)

Lemma round_half_away_range (num den k : Z) :
  0 <= num <= den * k -> 0 < den ->
  0 <= CategoryDistribution.round_half_away num den <= k.
Proof.
  intros Hn Hd.
  pose proof (round_half_away_nearest num den ltac:(lia) Hd) as H.
  set (p := CategoryDistribution.round_half_away num den) in *. nia.
Qed.

Lemma sum_item_count_perm (l l' : list CategoryDistribution.row) :
  Permutation l l' ->
  fold_right Z.add 0 (map CategoryDistribution.item_count l) =
  fold_right Z.add 0 (map CategoryDistribution.item_count l').
Proof. induction 1; simpl; lia. Qed.

Lemma category_counts_positive (db : database) (cc : string * Z) :
  In cc (CategoryDistribution.category_counts db) -> 1 <= snd cc <= available db.
Proof.
  intros H. split.
  - unfold CategoryDistribution.category_counts, group_count in H.
    apply in_map_iff in H. destruct H as (k & <- & Hk). simpl.
    apply nodup_In in Hk. apply (count_occ_In string_dec) in Hk. lia.
  - rewrite (category_counts_size db cc H). unfold available_in, available.
    apply count_filter_le.
Qed.

(** X18. In the distribution the query computes, every row counts at least
    one item and at most all available items, the item counts add up to the
    number of available items, every percentage lies between 0.00 and
    100.00, and when there is a single category its percentage is exactly
    100.00. *)
Theorem category_rows_bounds (db : database) :
  exists rows,
    CategoryDistribution.query db = Ok rows /\
    (forall r, In r rows ->
       1 <= CategoryDistribution.item_count r <= available db /\
       exists p, CategoryDistribution.percentage r = Some p /\ 0 <= p <= 10000) /\
    fold_right Z.add 0 (map CategoryDistribution.item_count rows) = available db /\
    (forall r, rows = [r] -> CategoryDistribution.percentage r = Some 10000).
Proof.
  destruct (Z_lt_le_dec 0 (available db)) as [Hpos|Hzero].
  - assert (Hne := proj1 (available_pos_iff db) Hpos).
    eexists. split; [now apply category_query_rows|].
    set (le := fun a b => CategoryDistribution.item_count b <=? CategoryDistribution.item_count a).
    set (rows0 := map (distribution_row (available db)) (CategoryDistribution.category_counts db)).
    assert (Hperm : Permutation (order_by le rows0) rows0) by apply order_by_perm.
    assert (Hrow : forall r, In r (order_by le rows0) ->
              exists cc, In cc (CategoryDistribution.category_counts db) /\
                         r = distribution_row (available db) cc).
    { intros r Hr. apply (Permutation_in _ Hperm) in Hr.
      apply in_map_iff in Hr. destruct Hr as (cc & <- & Hcc). now exists cc. }
    assert (Hsum : fold_right Z.add 0 (map CategoryDistribution.item_count (order_by le rows0))
                   = available db).
    { rewrite (sum_item_count_perm _ _ Hperm). unfold rows0. rewrite map_map. simpl.
      apply category_counts_total. }
    split; [|split; [exact Hsum|]].
    + intros r Hr. destruct (Hrow r Hr) as (cc & Hcc & ->).
      pose proof (category_counts_positive db cc Hcc) as Hb.
      split; [exact Hb|]. eexists. split; [reflexivity|].
      apply round_half_away_range; [nia|assumption].
    + intros r Hr. rewrite Hr in Hsum. simpl in Hsum.
      destruct (Hrow r ltac:(rewrite Hr; now left)) as (cc & Hcc & ->).
      simpl in Hsum. simpl. f_equal.
      pose proof (round_half_away_nearest (snd cc * 100 * 100) (available db)
                    ltac:(lia) Hpos) as H.
      set (p := CategoryDistribution.round_half_away _ _) in *. nia.
  - assert (Hnil : filter items_is_available (items db) = []).
    { destruct (filter items_is_available (items db)) eqn:E; [reflexivity|].
      exfalso. assert (Hp : 0 < available db).
      { apply available_pos_iff. rewrite E. discriminate. }
      lia. }
    exists []. split; [now apply category_query_no_available|].
    split; [intros r []|]. split.
    + unfold available, count. now rewrite Hnil.
    + intros r Hr. discriminate.
Qed.

Lemma filter_idem {A} (p : A -> bool) (l : list A) : filter p (filter p l) = filter p l.
Proof.
  induction l as [|a l IH]; simpl; [reflexivity|].
  destruct (p a) eqn:E; simpl; [rewrite E|]; now rewrite IH.
Qed.

(** The distribution reads the available items only: two databases with
    the same available items, whatever their unavailable items and other
    tables, get the same result; so dropping every unavailable item changes
    nothing. *)
Theorem category_query_available_only (db1 db2 : database) :
  filter items_is_available (items db1) = filter items_is_available (items db2) ->
  CategoryDistribution.query db1 = CategoryDistribution.query db2.
Proof.
  intros H. unfold CategoryDistribution.query, CategoryDistribution.total_items,
    CategoryDistribution.category_counts. now rewrite H.
Qed.

Lemma category_query_available_only_witness :
  filter items_is_available (items books_and_toys) =
  filter items_is_available
    (items (with_items two_users (filter items_is_available (items books_and_toys)))) /\
  CategoryDistribution.query books_and_toys =
  CategoryDistribution.query
    (with_items two_users (filter items_is_available (items books_and_toys))).
Proof.
  split; [reflexivity|].
  apply (category_query_available_only books_and_toys
           (with_items two_users (filter items_is_available (items books_and_toys)))).
  reflexivity.
Defined.

(** Witnesses for the invariants of admin_logs. *)
Lemma no_logs_reference (us : list users_row) : logs_reference us [].
Proof. intros r a []. Defined.

Lemma exec_keeps_admin_id_valid_witness :
  logs_reference (users two_users) (admin_logs two_users) /\
  logs_reference
    (users (fst (exec (session_on 7 100)
                   (rpc_log_admin_action (Some "ban_user"%string) None None None) two_users)))
    (admin_logs (fst (exec (session_on 7 100)
                   (rpc_log_admin_action (Some "ban_user"%string) None None None) two_users))).
Proof.
  split; [apply no_logs_reference|].
  apply (exec_keeps_admin_id_valid (session_on 7 100)
           (rpc_log_admin_action (Some "ban_user"%string) None None None) two_users).
  apply no_logs_reference.
Defined.

Lemma one_log_references : logs_reference (users two_users) one_log.
Proof.
  intros r a [<-|[]] Ha. injection Ha as <-.
  exists (user_on 7 "mallory@example.com" 20). split; [simpl; auto|reflexivity].
Defined.

Lemma on_delete_set_null_keeps_logs_witness :
  logs_reference (users two_users) one_log /\
  logs_reference (filter (fun u => negb (N.eqb (users_id u) 7)) (users two_users))
                 (on_delete_set_null 7 one_log) /\
  map log_admin_id (on_delete_set_null 7 one_log) = [None].
Proof.
  split; [exact one_log_references|].
  pose proof (on_delete_set_null_keeps_logs 7 (users two_users) one_log one_log_references) as H.
  cbn zeta in H. split; [apply H|]. destruct H as (_ & _ & H). exact H.
Defined.

(** * Counting with a Map *)

Lemma js_or_zero_some (n : Z) : js_or_zero (Some n) = n.
Proof. unfold js_or_zero. destruct (Z.eqb_spec n 0); congruence. Qed.

Section Tally.
Context {K : Type} (eqb : K -> K -> bool) (dec : forall a b : K, {a = b} + {a <> b}).
Hypothesis eqb_eq : forall a b, eqb a b = true <-> a = b.

Lemma js_map_get_set (m : list (K * Z)) (k k' : K) (v : Z) :
  js_map_get eqb (js_map_set eqb m k v) k' =
  if dec k k' then Some v else js_map_get eqb m k'.
Proof.
  induction m as [|[k0 v0] m IH]; simpl.
  - destruct (dec k k') as [->|Hne].
    + now rewrite (proj2 (eqb_eq k' k') eq_refl).
    + destruct (eqb k k') eqn:E; [apply eqb_eq in E; contradiction|reflexivity].
  - destruct (eqb k0 k) eqn:E0; simpl.
    + apply eqb_eq in E0. subst k0.
      destruct (dec k k') as [->|Hne].
      * now rewrite (proj2 (eqb_eq k' k') eq_refl).
      * destruct (eqb k k') eqn:E; [apply eqb_eq in E; contradiction|reflexivity].
    + destruct (eqb k0 k') eqn:E1.
      * apply eqb_eq in E1. subst k0.
        destruct (dec k k') as [->|Hne]; [|reflexivity].
        rewrite (proj2 (eqb_eq k' k') eq_refl) in E0. discriminate.
      * exact IH.
Qed.

Lemma js_map_set_keys (m : list (K * Z)) (k : K) (v : Z) :
  map fst (js_map_set eqb m k v) =
  if in_dec dec k (map fst m) then map fst m else map fst m ++ [k].
Proof.
  induction m as [|[k0 v0] m IH]; simpl; [reflexivity|].
  destruct (eqb k0 k) eqn:E0; simpl.
  - apply eqb_eq in E0. subst k0. destruct (dec k k); [reflexivity|contradiction].
  - rewrite IH. destruct (dec k0 k) as [->|Hne].
    + rewrite (proj2 (eqb_eq k k) eq_refl) in E0. discriminate.
    + destruct (in_dec dec k (map fst m)); reflexivity.
Qed.

Lemma js_map_set_sum (m : list (K * Z)) (k : K) :
  fold_right Z.add 0 (map snd ((bump eqb) m k)) = fold_right Z.add 0 (map snd m) + 1.
Proof.
  unfold bump. induction m as [|[k0 v0] m IH]; simpl; [reflexivity|].
  destruct (eqb k0 k) eqn:E0; simpl.
  - destruct (Z.eqb_spec v0 0); lia.
  - rewrite IH. lia.
Qed.

Lemma value_at_bump (m : list (K * Z)) (k k' : K) :
  value_at eqb ((bump eqb) m k) k' = value_at eqb m k' + if dec k k' then 1 else 0.
Proof.
  unfold value_at, bump. rewrite js_map_get_set.
  destruct (dec k k') as [->|Hne]; [|lia]. now rewrite js_or_zero_some.
Qed.

Lemma fold_bump_value (keys : list K) :
  forall (m : list (K * Z)) (k : K),
  value_at eqb (fold_left (bump eqb) keys m) k = value_at eqb m k + Z.of_nat (count_occ dec keys k).
Proof.
  induction keys as [|x keys IH]; intros m k; simpl; [lia|].
  rewrite IH, value_at_bump. destruct (dec x k); lia.
Qed.

Lemma fold_bump_sum (keys : list K) :
  forall m : list (K * Z),
  fold_right Z.add 0 (map snd (fold_left (bump eqb) keys m)) =
  fold_right Z.add 0 (map snd m) + Z.of_nat (List.length keys).
Proof.
  induction keys as [|x keys IH]; intros m; simpl List.length; simpl fold_left; [simpl; lia|].
  rewrite IH, js_map_set_sum. lia.
Qed.

Lemma bump_keys_NoDup (m : list (K * Z)) (k : K) :
  NoDup (map fst m) -> NoDup (map fst ((bump eqb) m k)).
Proof.
  intros H. unfold bump. rewrite js_map_set_keys.
  destruct (in_dec dec k (map fst m)) as [Hin|Hn]; [exact H|].
  apply NoDup_app; [exact H|repeat constructor; intros []|].
  intros x Hx [<-|[]]. contradiction.
Qed.

Lemma bump_keys_In (m : list (K * Z)) (k x : K) :
  In x (map fst ((bump eqb) m k)) <-> In x (map fst m) \/ x = k.
Proof.
  unfold bump. rewrite js_map_set_keys.
  destruct (in_dec dec k (map fst m)) as [Hin|Hn].
  - split; [auto|]. intros [H| ->]; assumption.
  - rewrite in_app_iff. simpl. intuition.
Qed.

Lemma fold_bump_keys (keys : list K) :
  forall m : list (K * Z),
  (NoDup (map fst m) -> NoDup (map fst (fold_left (bump eqb) keys m))) /\
  (forall x, In x (map fst (fold_left (bump eqb) keys m)) <-> In x (map fst m) \/ In x keys).
Proof.
  induction keys as [|k keys IH]; intros m; simpl.
  - split; [auto|]. intros x. tauto.
  - destruct (IH ((bump eqb) m k)) as [H1 H2]. split.
    + intros H. apply H1. now apply bump_keys_NoDup.
    + intros x. rewrite H2, bump_keys_In. intuition congruence.
Qed.

Lemma js_map_get_In (m : list (K * Z)) (k : K) (v : Z) :
  NoDup (map fst m) -> In (k, v) m -> js_map_get eqb m k = Some v.
Proof.
  induction m as [|[k0 v0] m IH]; simpl; intros Hnd Hin; [contradiction|].
  inversion Hnd as [|? ? Hk0 Hm]; subst.
  destruct Hin as [E|Hin].
  - injection E as -> ->. now rewrite (proj2 (eqb_eq k k) eq_refl).
  - destruct (eqb k0 k) eqn:E0.
    + apply eqb_eq in E0. subst k0. exfalso. apply Hk0.
      apply in_map_iff. now exists (k, v).
    + now apply IH.
Qed.

(** What the count by key computes: one entry for each key that occurs, in
    no particular relation to its position, carrying the number of its
    occurrences. *)
Lemma tally_spec (keys : list K) :
  NoDup (map fst (tally eqb keys)) /\
  (forall k, In k (map fst (tally eqb keys)) <-> In k keys) /\
  (forall k n, In (k, n) (tally eqb keys) ->
               n = Z.of_nat (count_occ dec keys k) /\ 1 <= n) /\
  fold_right Z.add 0 (map snd (tally eqb keys)) = Z.of_nat (List.length keys).
Proof.
  unfold tally.
  destruct (fold_bump_keys keys []) as [Hnd Hin].
  specialize (Hnd (NoDup_nil _)).
  split; [exact Hnd|]. split; [|split].
  - intros k. rewrite Hin. simpl. tauto.
  - intros k n Hkn.
    assert (Hv : value_at eqb (fold_left (bump eqb) keys []) k = n).
    { unfold value_at. rewrite (js_map_get_In _ k n Hnd Hkn). apply js_or_zero_some. }
    rewrite fold_bump_value in Hv. unfold value_at in Hv. simpl in Hv.
    split; [lia|].
    assert (Hk : In k keys).
    { assert (H : In k (map fst (fold_left (bump eqb) keys []))).
      { apply in_map_iff. now exists (k, n). }
      apply Hin in H. destruct H as [[]|H]. exact H. }
    apply (count_occ_In dec) in Hk. lia.
  - rewrite fold_bump_sum. simpl. lia.
Qed.

Lemma tally_group_count (keys : list K) :
  Permutation (tally eqb keys) (group_count dec keys).
Proof.
  destruct (tally_spec keys) as (Hnd & Hin & Hval & _).
  apply NoDup_Permutation.
  - now apply NoDup_map_inv with (f := fst).
  - unfold group_count. apply NoDup_map_inv with (f := fst).
    rewrite map_map. simpl. rewrite map_id. apply NoDup_nodup.
  - intros [k n]. unfold group_count. rewrite in_map_iff. split.
    + intros H. exists k. destruct (Hval k n H) as [E _]. split; [now rewrite E|].
      apply nodup_In. apply Hin. apply in_map_iff. now exists (k, n).
    + intros (k' & E & Hk'). injection E as E1 E2. rewrite <- E1, <- E2. clear E1 E2.
      apply nodup_In, Hin, in_map_iff in Hk'. destruct Hk' as ([k0 n0] & E0 & H0).
      simpl in E0. subst k0. destruct (Hval k' n0 H0) as [E _]. now rewrite <- E.
Qed.
End Tally.

(** * Analytics.tsx *)

Lemma Z_eqb_eq_iff (a b : Z) : (a =? b) = true <-> a = b.
Proof. apply Z.eqb_eq. Qed.

Lemma filter_andb {A} (p q : A -> bool) (l : list A) :
  filter q (filter p l) = filter (fun x => p x && q x) l.
Proof.
  induction l as [|a l IH]; simpl; [reflexivity|].
  destruct (p a); simpl; [destruct (q a)|]; now rewrite IH.
Qed.

Lemma is_available_filter (l : list items_row) :
  filter (fun i => Bool.eqb (items_is_available i) true) l = filter items_is_available l.
Proof. apply filter_ext. intros i. now destruct (items_is_available i). Qed.

(** X19. The category count done in the browser over the items table gives
    one entry for each category that has an available item, carrying the
    number of available items of that category (at least 1); the counts add
    up to the number of available items; and the entries are, up to order,
    the groups that get_category_distribution's query forms. *)
Theorem fetchCategoryDistribution_counts (db : database) :
  let r := fetchCategoryDistribution (items db) in
  NoDup (map fst r) /\
  (forall c n, In (c, n) r -> n = available_in db c /\ 1 <= n) /\
  (forall c, In c (map fst r) <->
             exists i, In i (items db) /\ items_is_available i = true /\
                       items_category i = c) /\
  fold_right Z.add 0 (map snd r) = available db /\
  Permutation r (CategoryDistribution.category_counts db).
Proof.
  cbn zeta. unfold fetchCategoryDistribution. rewrite is_available_filter.
  set (cats := map items_category (filter items_is_available (items db))).
  destruct (tally_spec String.eqb string_dec String.eqb_eq cats) as (Hnd & Hin & Hval & Hsum).
  split; [exact Hnd|]. split; [|split; [|split]].
  - intros c n H. destruct (Hval c n H) as [E Hpos]. split; [|exact Hpos].
    rewrite E. apply count_occ_string_filter.
  - intros c. rewrite Hin. apply available_category.
  - rewrite Hsum. unfold cats, available, count. now rewrite length_map.
  - apply tally_group_count. exact String.eqb_eq.
Qed.

Lemma StronglySorted_snoc (l : list Z) (x : Z) :
  StronglySorted Z.lt l -> (forall k, In k l -> k < x) -> StronglySorted Z.lt (l ++ [x]).
Proof.
  intros H. induction H as [|a l Hl IH Ha]; intros Hx; simpl.
  - repeat constructor.
  - constructor.
    + apply IH. intros k Hk. apply Hx. now right.
    + apply Forall_app. split; [exact Ha|]. constructor; [|constructor].
      apply Hx. now left.
Qed.

Lemma fold_bump_increasing (l : list Z) :
  forall m : list (Z * Z),
  StronglySorted Z.lt (map fst m) ->
  (forall k x, In k (map fst m) -> In x l -> k <= x) ->
  StronglySorted Z.le l ->
  StronglySorted Z.lt (map fst (fold_left (bump Z.eqb) l m)).
Proof.
  induction l as [|x l IH]; intros m Hm Hle Hl; simpl; [exact Hm|].
  inversion Hl as [|? ? Hl' Hx]; subst.
  apply IH; [| |exact Hl'].
  - unfold bump. rewrite (js_map_set_keys Z.eqb Z.eq_dec Z_eqb_eq_iff).
    destruct (in_dec Z.eq_dec x (map fst m)) as [Hin|Hn]; [exact Hm|].
    apply StronglySorted_snoc; [exact Hm|].
    intros k Hk. assert (k <= x) by (apply Hle; [exact Hk|now left]).
    assert (k <> x) by (intros ->; contradiction). lia.
  - intros k y Hk Hy. apply (bump_keys_In Z.eqb Z.eq_dec Z_eqb_eq_iff) in Hk.
    destruct Hk as [Hk| ->].
    + apply Hle; [exact Hk|now right].
    + rewrite Forall_forall in Hx. now apply Hx.
Qed.

Lemma date_of_monotone (a b : Z) : a <= b -> date_of a <= date_of b.
Proof. intros H. unfold date_of. apply Z.div_le_mono; [reflexivity|exact H]. Qed.

Lemma sorted_days (l : list Z) :
  StronglySorted Z.le (map iso_date (order_by Z.leb l)).
Proof.
  assert (Hs : StronglySorted Z.le (order_by Z.leb l)).
  { apply Sorted_StronglySorted; [intros x y z; apply Z.le_trans|].
    apply (Sorted_weaken (fun a b => (a <=? b) = true)).
    - intros a b. apply Z.leb_le.
    - apply order_by_is_sorted. intros a b. rewrite Z.leb_gt, Z.leb_le. lia. }
  induction Hs as [|a t Ht IH Ha]; simpl; constructor; [exact IH|].
  rewrite Forall_forall in *. intros d Hd. apply in_map_iff in Hd.
  destruct Hd as (c & <- & Hc). apply date_of_monotone. now apply Ha.
Qed.

Lemma count_occ_days (l : list Z) (d : Z) :
  Z.of_nat (count_occ Z.eq_dec (map iso_date (order_by Z.leb l)) d) =
  count (filter (fun c => iso_date c =? d) l).
Proof.
  rewrite <- count_occ_map_filter. f_equal.
  apply Permutation_count_occ. apply Permutation_map, order_by_perm.
Qed.

(** X20. The count by day done in the browser (fetchUserGrowth,
    fetchItemGrowth) lists the days in strictly increasing order; a day is
    listed exactly when a row was created on it within the requested
    interval, with the number of such rows, so days without rows are absent
    rather than zero; and the counts add up to the number of rows in the
    interval. *)
Theorem growth_by_day_spec (created : list Z) (startDate endDate : Z) :
  let r := growth_by_day created startDate endDate in
  let in_range := fun c => (startDate <=? c) && (c <=? endDate) in
  StronglySorted Z.lt (map fst r) /\
  (forall d n, In (d, n) r ->
     1 <= n /\ n = count (filter (fun c => in_range c && (iso_date c =? d)) created)) /\
  (forall d, In d (map fst r) <->
             exists c, In c created /\ in_range c = true /\ iso_date c = d) /\
  fold_right Z.add 0 (map snd r) = count (filter in_range created).
Proof.
  cbn zeta. unfold growth_by_day.
  set (in_range := fun c => (startDate <=? c) && (c <=? endDate)).
  set (keys := map iso_date (order_by Z.leb (filter in_range created))).
  destruct (tally_spec Z.eqb Z.eq_dec Z_eqb_eq_iff keys) as (Hnd & Hin & Hval & Hsum).
  split; [|split; [|split]].
  - unfold tally. apply fold_bump_increasing.
    + constructor.
    + intros k x [].
    + apply sorted_days.
  - intros d n H. destruct (Hval d n H) as [E Hpos]. split; [exact Hpos|].
    rewrite E. unfold keys. rewrite count_occ_days, filter_andb. reflexivity.
  - intros d. rewrite Hin. unfold keys. rewrite in_map_iff. split.
    + intros (c & E & Hc). apply (Permutation_in _ (order_by_perm Z.leb _)) in Hc.
      apply filter_In in Hc. exists c. tauto.
    + intros (c & Hc & Hr & E). exists c. split; [exact E|].
      apply (Permutation_in _ (Permutation_sym (order_by_perm Z.leb _))).
      apply filter_In. tauto.
  - rewrite Hsum. unfold keys, count. rewrite length_map.
    now rewrite (Permutation_length (order_by_perm Z.leb _)).
Qed.

Lemma tally_value_at (keys : list Z) (d : Z) :
  value_at Z.eqb (tally Z.eqb keys) d = Z.of_nat (count_occ Z.eq_dec keys d).
Proof.
  unfold tally. rewrite (fold_bump_value Z.eqb Z.eq_dec Z_eqb_eq_iff). reflexivity.
Qed.

Lemma day_within (startDate endDate d c : Z) :
  startDate <= timestamp_of_date d -> timestamp_of_date (d + 1) - 1 <= endDate ->
  iso_date c = d -> (startDate <=? c) && (c <=? endDate) = true.
Proof.
  intros Hs He E. unfold iso_date in E.
  assert (H1 : d <= date_of c) by lia. apply date_of_ge in H1.
  assert (H2 : c < timestamp_of_date (d + 1)).
  { destruct (Z_lt_le_dec c (timestamp_of_date (d + 1))) as [H|H]; [exact H|].
    apply date_of_ge in H. lia. }
  apply andb_true_iff. split; apply Z.leb_le; lia.
Qed.

(** X21. The browser's count and the SQL series agree on every day that lies
    wholly inside the requested interval: for such a row of the series the
    browser holds the row's new_users for that day, and the day is missing
    from the browser's list exactly when new_users is 0. *)
Theorem fetchUserGrowth_agrees_with_query (s : session) (db : database) (w : Z)
    (startDate endDate : Z) (r : UserGrowth.row) :
  0 <= w ->
  In r (UserGrowth.query s db w) ->
  startDate <= timestamp_of_date (UserGrowth.date r) ->
  timestamp_of_date (UserGrowth.date r + 1) - 1 <= endDate ->
  value_at Z.eqb (fetchUserGrowth (users db) startDate endDate) (UserGrowth.date r)
  = UserGrowth.new_users r /\
  (UserGrowth.new_users r = 0 <->
   ~ In (UserGrowth.date r) (map fst (fetchUserGrowth (users db) startDate endDate))).
Proof.
  intros Hw Hr Hs He.
  rewrite user_growth_query_rows in Hr by assumption.
  apply in_map_iff in Hr. destruct Hr as (d & <- & _).
  cbn [growth_row UserGrowth.date UserGrowth.new_users] in *.
  unfold fetchUserGrowth, growth_by_day.
  set (in_range := fun c => (startDate <=? c) && (c <=? endDate)).
  set (keys := map iso_date (order_by Z.leb (filter in_range (map users_created_at (users db))))).
  assert (Hcount : Z.of_nat (count_occ Z.eq_dec keys d) = signups_on db d).
  { unfold keys. rewrite count_occ_days, filter_andb.
    unfold signups_on, count. rewrite filter_map_comm, length_map. do 2 f_equal.
    apply filter_ext_in. intros u _. unfold iso_date.
    destruct (Z.eqb_spec (date_of (users_created_at u)) d) as [E|E]; [|apply andb_false_r].
    rewrite andb_true_r. unfold in_range. now apply (day_within startDate endDate d). }
  split.
  - rewrite tally_value_at. exact Hcount.
  - destruct (tally_spec Z.eqb Z.eq_dec Z_eqb_eq_iff keys) as (_ & Hin & _ & _).
    rewrite Hin, <- Hcount. rewrite (count_occ_not_In Z.eq_dec). lia.
Qed.

(** * Routes *)

(** X22. Once loading has ended every route settles after at most one
    redirect.  A visitor who is not signed in ends on the home page, an item
    page or the sign-in form, never on a protected or admin page.  A
    signed-in user never ends on the sign-in form and reaches every admin
    page that is asked for: the guard of the admin routes looks at nothing
    but the presence of a user.  While loading, the admin routes show the
    spinner. *)
Theorem routes_settle {U : Type} (user : option U) (r : route) :
  (exists p, settle 1 user false r = Some (Render p) /\
     match user with
     | None => p = HomePage \/ p = ItemDetailPage \/ p = AuthForm
     | Some _ => p <> AuthForm /\
                 forall child, r = route_admin child -> p = AdminLayout child
     end) /\
  forall child, AppContent user true (route_admin child) = Spinner.
Proof.
  split; [|reflexivity].
  destruct user as [u|]; destruct r; simpl; eexists; (split; [reflexivity|]);
    try (split; [discriminate|intros c E; try discriminate; now injection E as <-]);
    auto.
Qed.

(** X23. Of the seven entries of the admin sidebar, six lead to an admin
    route and carry that route's page title; the entry "Messages" points to
    /admin/messages, for which the application declares no route. *)
Theorem navigation_and_routes :
  filter (fun item => negb (existsb (fun rp => String.eqb (fst rp) (snd item))
                                    admin_route_paths)) navigation
  = [("Messages", "/admin/messages")]%string /\
  (forall rp, In rp admin_route_paths ->
     exists name, In (name, fst rp) navigation /\ header_title (fst rp) = name) /\
  forall pathname, ~ In pathname (map snd navigation) ->
                   header_title pathname = "Admin Panel"%string.
Proof.
  split; [reflexivity|]. split.
  - intros rp Hrp. simpl in Hrp.
    repeat (destruct Hrp as [<-|Hrp]; [eexists; split; [|reflexivity]; simpl; tauto|]).
    destruct Hrp.
  - intros pathname H. unfold header_title.
    destruct (find _ navigation) as [item|] eqn:E; [|reflexivity].
    apply find_some in E. destruct E as [Hin Heq]. apply String.eqb_eq in Heq.
    exfalso. apply H. rewrite <- Heq. now apply in_map.
Qed.

(** * Reports *)

Lemma report_status_eqb_eq (a b : report_status) : report_status_eqb a b = true <-> a = b.
Proof. destruct a, b; simpl; split; congruence. Qed.

(** X24. The four stat cards partition the reports: their numbers add up to
    the number of reports.  The empty filter shows every report, and a
    status filter shows exactly the reports of that status, as many as that
    status's card says. *)
Theorem report_cards_partition (rs : list Report) :
  status_count rs pending + status_count rs reviewed + status_count rs resolved +
  status_count rs dismissed = count rs /\
  filteredReports rs None = rs /\
  (forall s, count (filteredReports rs (Some s)) = status_count rs s) /\
  (forall s r, In r (filteredReports rs (Some s)) <-> In r rs /\ status r = s).
Proof.
  split; [|split; [|split]].
  - unfold status_count, count. rewrite <- !Nat2Z.inj_add. f_equal.
    induction rs as [|r rs IH]; [reflexivity|].
    cbn [filter]. destruct (status r); cbn [report_status_eqb List.length]; lia.
  - unfold filteredReports. induction rs as [|r rs IH]; simpl; [reflexivity|].
    now rewrite IH.
  - reflexivity.
  - intros s r. unfold filteredReports. rewrite filter_In, report_status_eqb_eq. tauto.
Qed.

(** X25. A status update that the server accepts keeps the reports and their
    order, rewrites exactly the reports with the given id (status, notes
    with empty notes stored as null, updated_at) and leaves every other
    report untouched; the card of the new status grows by the number of
    reports that moved to it and every other card shrinks by the number that
    left it.  Repeating the update at any later time gives the state that a
    single update at that time gives: nothing but updated_at of those
    reports changes again.  An update the server rejects leaves the state
    as it was. *)
Theorem handleUpdateReportStatus_effect (now : Z) (st : reports_state)
    (reportId : string) (s : report_status) (notes : option string) :
  let st' := handleUpdateReportStatus false now st reportId s notes in
  map report_id (reports_list st') = map report_id (reports_list st) /\
  (forall r, In r (reports_list st') -> report_id r = reportId ->
     status r = s /\ admin_notes r = notes_or_null notes /\ updated_at r = now) /\
  (forall r, report_id r <> reportId ->
     (In r (reports_list st') <-> In r (reports_list st))) /\
  status_count (reports_list st') s =
    status_count (reports_list st) s + moved_in (reports_list st) reportId s /\
  (forall s2, s2 <> s ->
     status_count (reports_list st') s2 =
     status_count (reports_list st) s2 - moved_out (reports_list st) reportId s2) /\
  (forall now2,
     handleUpdateReportStatus false now2 st' reportId s notes =
     handleUpdateReportStatus false now2 st reportId s notes) /\
  handleUpdateReportStatus true now st reportId s notes = st.
Proof.
  cbn zeta. unfold handleUpdateReportStatus. cbn [reports_list selectedReport].
  set (f := fun r => if String.eqb (report_id r) reportId
                     then with_status r s notes now else r).
  assert (Hid : forall r, report_id (f r) = report_id r).
  { intros r. unfold f. destruct (String.eqb (report_id r) reportId); reflexivity. }
  split; [|split; [|split; [|split; [|split; [|split]]]]].
  - rewrite map_map. apply map_ext. exact Hid.
  - intros r Hr E. apply in_map_iff in Hr. destruct Hr as (r0 & <- & _).
    rewrite Hid in E. unfold f. rewrite (proj2 (String.eqb_eq _ _) E). repeat split.
  - intros r Hne. rewrite in_map_iff. split.
    + intros (r0 & E & Hr0). unfold f in E.
      destruct (String.eqb_spec (report_id r0) reportId) as [E0|E0].
      * subst r. simpl in Hne. contradiction.
      * now subst r0.
    + intros Hr. exists r. split; [|exact Hr]. unfold f.
      now rewrite (proj2 (String.eqb_neq _ _) Hne).
  - unfold status_count, moved_in, count. rewrite <- Nat2Z.inj_add. f_equal.
    induction (reports_list st) as [|r rs IH]; [reflexivity|].
    cbn [map filter]. unfold f at 1.
    destruct (String.eqb (report_id r) reportId); cbn [andb negb with_status status].
    + rewrite (proj2 (report_status_eqb_eq s s) eq_refl).
      destruct (report_status_eqb (status r) s); cbn [negb List.length]; rewrite IH; lia.
    + destruct (report_status_eqb (status r) s); cbn [List.length]; rewrite IH; lia.
  - intros s2 Hs2. unfold status_count, moved_out, count.
    assert (E : (List.length (filter (fun r => report_status_eqb (status r) s2)
                                (map f (reports_list st))) +
                 List.length (filter (fun r => String.eqb (report_id r) reportId &&
                                               report_status_eqb (status r) s2)
                                (reports_list st)) =
                 List.length (filter (fun r => report_status_eqb (status r) s2)
                                (reports_list st)))%nat).
    { induction (reports_list st) as [|r rs IH]; [reflexivity|].
      cbn [map filter]. unfold f at 1.
      destruct (String.eqb (report_id r) reportId); cbn [andb with_status status].
      - assert (Hf : report_status_eqb s s2 = false).
        { destruct (report_status_eqb s s2) eqn:E; [|reflexivity].
          apply report_status_eqb_eq in E. congruence. }
        rewrite Hf. destruct (report_status_eqb (status r) s2); cbn [List.length]; lia.
      - destruct (report_status_eqb (status r) s2); cbn [List.length]; lia. }
    lia.
  - intros now2. f_equal.
    + rewrite map_map. apply map_ext. intros r. unfold f.
      destruct (String.eqb (report_id r) reportId) eqn:E; cbn [with_status report_id];
        rewrite E; reflexivity.
    + destruct (selectedReport st) as [sel|]; [|reflexivity].
      destruct (String.eqb (report_id sel) reportId) eqn:E; cbn [with_status report_id updated_at];
        rewrite E; reflexivity.
  - reflexivity.
Qed.

(** * Items *)

Lemma items_row_eta (i : items_row) :
  {| items_id := items_id i; items_category := items_category i;
     items_is_available := items_is_available i;
     items_created_at := items_created_at i |} = i.
Proof. now destruct i. Qed.

(** X26. Toggling the availability of an item in the list, as the button does
    with the item's own current status, flips the rows of that id and no
    other row, keeps the rows and their order, and is undone by toggling
    again; a toggle the server rejects changes nothing. *)
Theorem handleToggleAvailability_twice (shown : list items_row) (itemId : N) (st : bool) :
  (forall i, In i shown -> items_id i = itemId -> items_is_available i = st) ->
  let once := handleToggleAvailability false shown itemId st in
  map items_id once = map items_id shown /\
  (forall i, In i once -> items_id i = itemId -> items_is_available i = negb st) /\
  (forall i, items_id i <> itemId -> (In i once <-> In i shown)) /\
  handleToggleAvailability false once itemId (negb st) = shown /\
  handleToggleAvailability true shown itemId st = shown.
Proof.
  intros H. cbn zeta. unfold handleToggleAvailability, update_is_available.
  split; [|split; [|split; [|split]]].
  - rewrite map_map. apply map_ext. intros i. now destruct (N.eqb (items_id i) itemId).
  - intros i Hi E. apply in_map_iff in Hi. destruct Hi as (i0 & <- & _).
    destruct (N.eqb_spec (items_id i0) itemId) as [E0|E0]; [reflexivity|].
    contradiction.
  - intros i Hne. rewrite in_map_iff. split.
    + intros (i0 & E & Hi0).
      destruct (N.eqb_spec (items_id i0) itemId) as [E0|E0].
      * subst i. simpl in Hne. contradiction.
      * now subst i0.
    + intros Hi. exists i. split; [|exact Hi].
      now rewrite (proj2 (N.eqb_neq _ _) Hne).
  - rewrite map_map. rewrite <- (map_id shown) at 2. apply map_ext_in. intros i Hi.
    destruct (N.eqb (items_id i) itemId) eqn:E; cbn [items_id]; rewrite E; [|reflexivity].
    cbn [items_category items_created_at]. rewrite negb_involutive.
    rewrite <- (H i Hi (proj1 (N.eqb_eq _ _) E)). apply items_row_eta.
  - reflexivity.
Qed.

Lemma handleToggleAvailability_twice_witness :
  (forall i, In i [item_in 1 "Books" true; item_in 2 "Toys" false] ->
             items_id i = 1%N -> items_is_available i = true) /\
  handleToggleAvailability false
    (handleToggleAvailability false [item_in 1 "Books" true; item_in 2 "Toys" false] 1 true)
    1 (negb true)
  = [item_in 1 "Books" true; item_in 2 "Toys" false].
Proof.
  assert (H : forall i, In i [item_in 1 "Books" true; item_in 2 "Toys" false] ->
                        items_id i = 1%N -> items_is_available i = true).
  { intros i [<-|[<-|[]]] E; [reflexivity|discriminate]. }
  split; [exact H|].
  apply (handleToggleAvailability_twice
           [item_in 1 "Books" true; item_in 2 "Toys" false] 1 true H).
Defined.

Lemma count_update_one (rows : list items_row) (itemId : N) (p : items_row -> bool)
    (i : items_row) :
  NoDup (map items_id rows) -> In i rows -> items_id i = itemId ->
  items_is_available i = true ->
  count (filter p (filter items_is_available (update_is_available rows itemId false)))
  = count (filter p (filter items_is_available rows)) - (if p i then 1 else 0).
Proof.
  intros Hnd Hin Hid Hav. unfold count.
  assert (E : (List.length (filter p (filter items_is_available
                                        (update_is_available rows itemId false)))
               + (if p i then 1 else 0)
               = List.length (filter p (filter items_is_available rows)))%nat).
  { induction rows as [|r rows IH]; [contradiction|].
    simpl in Hnd. inversion Hnd as [|? ? Hr Hrows]; subst.
    cbn [update_is_available map].
    destruct Hin as [->|Hin].
    - rewrite N.eqb_refl. cbn [filter items_is_available]. rewrite Hav.
      assert (Hrest : update_is_available rows (items_id i) false = rows).
      { unfold update_is_available. rewrite <- (map_id rows) at 2.
        apply map_ext_in. intros r Hr'.
        destruct (N.eqb_spec (items_id r) (items_id i)) as [E|E]; [|reflexivity].
        exfalso. apply Hr. rewrite <- E. now apply in_map. }
      fold (update_is_available rows (items_id i) false). rewrite Hrest.
      cbn [filter]. destruct (p i); cbn [List.length]; lia.
    - assert (Hne : N.eqb (items_id r) (items_id i) = false).
      { apply N.eqb_neq. intros E. apply Hr. rewrite E. now apply in_map. }
      rewrite Hne. fold (update_is_available rows (items_id i) false).
      cbn [filter]. specialize (IH Hrows Hin).
      destruct (items_is_available r); cbn [filter]; [|exact IH].
      destruct (p r); cbn [List.length]; lia. }
  destruct (p i); lia.
Qed.

(** X27. Marking an available item as claimed, as the toggle does on the
    server, takes exactly that item out of what the category distribution
    counts: with unique item ids, the number of available items falls by
    one, the count of the item's category falls by one and the count of
    every other category stays. *)
Theorem claimed_item_leaves_distribution (db : database) (i : items_row) :
  NoDup (map items_id (items db)) ->
  In i (items db) -> items_is_available i = true ->
  let db' := with_items db (update_is_available (items db) (items_id i) false) in
  available db' = available db - 1 /\
  forall c, available_in db' c =
            available_in db c - (if String.eqb (items_category i) c then 1 else 0).
Proof.
  intros Hnd Hin Hav. cbn zeta. split.
  - unfold available. cbn [with_items items].
    pose proof (count_update_one (items db) (items_id i) (fun _ => true) i
                  Hnd Hin eq_refl Hav) as H.
    rewrite (filter_all (fun _ => true)
               (filter items_is_available
                  (update_is_available (items db) (items_id i) false))) in H
      by reflexivity.
    rewrite (filter_all (fun _ => true) (filter items_is_available (items db))) in H
      by reflexivity.
    exact H.
  - intros c. unfold available_in. cbn [with_items items].
    apply (count_update_one (items db) (items_id i)
             (fun x => String.eqb (items_category x) c) i Hnd Hin eq_refl Hav).
Qed.

Lemma claimed_item_leaves_distribution_witness :
  NoDup (map items_id (items books_and_toys)) /\
  In (item_in 3 "Toys" true) (items books_and_toys) /\
  items_is_available (item_in 3 "Toys" true) = true /\
  available (with_items books_and_toys
               (update_is_available (items books_and_toys) 3 false))
  = available books_and_toys - 1.
Proof.
  assert (Hnd : NoDup (map items_id (items books_and_toys))).
  { simpl. repeat constructor; simpl; intuition discriminate. }
  assert (Hin : In (item_in 3 "Toys" true) (items books_and_toys)).
  { simpl. tauto. }
  split; [exact Hnd|]. split; [exact Hin|]. split; [reflexivity|].
  apply (claimed_item_leaves_distribution books_and_toys (item_in 3 "Toys" true)
           Hnd Hin eq_refl).
Defined.

Lemma fetchUserGrowth_agrees_with_query_witness :
  0 <= 1 /\
  In {| UserGrowth.date := 100; UserGrowth.new_users := 2; UserGrowth.cumulative_users := 5 |}
     (UserGrowth.query (session_on 1 100) five_signups 1) /\
  timestamp_of_date 99 <= timestamp_of_date 100 /\
  timestamp_of_date (100 + 1) - 1 <= timestamp_of_date 102 /\
  value_at Z.eqb
    (fetchUserGrowth (users five_signups) (timestamp_of_date 99) (timestamp_of_date 102)) 100
  = 2.
Proof.
  assert (Hin : In {| UserGrowth.date := 100; UserGrowth.new_users := 2;
                      UserGrowth.cumulative_users := 5 |}
                   (UserGrowth.query (session_on 1 100) five_signups 1)).
  { vm_compute. tauto. }
  assert (H1 : timestamp_of_date 99 <= timestamp_of_date 100) by (vm_compute; discriminate).
  assert (H2 : timestamp_of_date (100 + 1) - 1 <= timestamp_of_date 102)
    by (vm_compute; discriminate).
  split; [lia|]. split; [exact Hin|]. split; [exact H1|]. split; [exact H2|].
  apply (fetchUserGrowth_agrees_with_query (session_on 1 100) five_signups 1
           (timestamp_of_date 99) (timestamp_of_date 102)
           {| UserGrowth.date := 100; UserGrowth.new_users := 2;
              UserGrowth.cumulative_users := 5 |} ltac:(lia) Hin H1 H2).
Defined.

(** * The dashboard *)

(** X28. When its queries succeed and the browser and the database are on
    the same UTC day, the dashboard shows the counters of
    get_platform_analytics: total users, items, messages, views and
    favorites, pending reports, new users today and new items today are
    equal, and available items is the number the category distribution is
    taken over.  A query that fails shows as 0. *)
Theorem dashboard_agrees_with_snapshot (s : session) (db : database)
    (browser_now n : Z) :
  iso_date browser_now = current_date s ->
  (exists r,
     PlatformAnalytics.get_platform_analytics s db n = Ok [r] /\
     let st := fetchDashboardData browser_now db in
     totalUsers st = PlatformAnalytics.total_users r /\
     totalItems st = PlatformAnalytics.total_items r /\
     totalMessages st = PlatformAnalytics.total_messages r /\
     pendingReports st = PlatformAnalytics.pending_reports r /\
     totalViews st = PlatformAnalytics.total_views r /\
     totalFavorites st = PlatformAnalytics.total_favorites r /\
     newUsersToday st = PlatformAnalytics.new_users_today r /\
     newItemsToday st = PlatformAnalytics.new_items_today r /\
     availableItems st = available db) /\
  (forall u m r v f nu ni,
     let st := dashboard_stats u failed_query m r v f nu ni in
     totalItems st = 0 /\ availableItems st = 0).
Proof.
  intros H. split; [|intros; split; reflexivity].
  eexists. split; [reflexivity|]. cbn zeta.
  unfold fetchDashboardData, dashboard_stats, select_head, select_exact, filtered_length.
  cbn [result_count result_data totalUsers totalItems totalMessages pendingReports
       totalViews totalFavorites newUsersToday newItemsToday availableItems
       PlatformAnalytics.total_users PlatformAnalytics.total_items
       PlatformAnalytics.total_messages PlatformAnalytics.pending_reports
       PlatformAnalytics.total_views PlatformAnalytics.total_favorites
       PlatformAnalytics.new_users_today PlatformAnalytics.new_items_today].
  rewrite !js_or_zero_some. unfold PlatformAnalytics.since_today. rewrite H.
  repeat split.
Qed.

Lemma dashboard_agrees_with_snapshot_witness :
  iso_date (100 * usecs_per_day + 7) = current_date (session_on 1 100) /\
  exists r,
    PlatformAnalytics.get_platform_analytics (session_on 1 100) five_signups 30 = Ok [r] /\
    newUsersToday (fetchDashboardData (100 * usecs_per_day + 7) five_signups)
    = PlatformAnalytics.new_users_today r.
Proof.
  split; [reflexivity|].
  destruct (dashboard_agrees_with_snapshot (session_on 1 100) five_signups
              (100 * usecs_per_day + 7) 30 eq_refl) as [(r & Hr & H) _].
  exists r. split; [exact Hr|]. apply H.
Defined.

Lemma platform_analytics_later_day_witness :
  current_date (session_on 1 20) <= current_date (session_on 1 21) /\
  exists r1 r2,
    PlatformAnalytics.get_platform_analytics (session_on 1 20) two_users 30 = Ok [r1] /\
    PlatformAnalytics.get_platform_analytics (session_on 1 21) two_users 30 = Ok [r2] /\
    PlatformAnalytics.new_users_today r2 <= PlatformAnalytics.new_users_today r1.
Proof.
  assert (H : current_date (session_on 1 20) <= current_date (session_on 1 21))
    by (vm_compute; discriminate).
  split; [exact H|].
  destruct (platform_analytics_later_day (session_on 1 20) (session_on 1 21) two_users 30 30 H)
    as (r1 & r2 & H1 & H2 & H3 & _).
  exists r1, r2. auto.
Defined.
